(** * functions/stats.js: the Netlify statistics function

    A shallow embedding of [src/functions/stats.js] and the properties of
    its request handler.

    The module keeps three process-wide variables, [sessions] (a JS [Map]),
    [pageViews] (an array) and [lastCleanup] (a number).  They are the
    [Store] below.  Every function of the file becomes a computation in the
    monad [M], which threads the store, reads the clock and may throw, so
    that [try]/[catch] and the state a throwing handler leaves behind are
    part of the model.

    Conventions of the embedding:
    - times are milliseconds since the epoch, in [Z]; a view's ISO
      timestamp is kept as the instant it prints ([toISOString] followed by
      [new Date] is the identity on instants);
    - one invocation of the handler runs within one turn of the event
      loop; its clock reads are the one instant [now];
    - [event.body] is given by what [JSON.parse] makes of it ([Body]);
    - the two fields the code reads, [sessionId] and [page], are JSON
      strings or absent ([None] is JS [undefined]);
    - [sessions] is a finite map: the code uses [has], [get], [set],
      [delete], [size] and a loop that deletes, none of which shows the
      insertion order of a [Map];
    - [pageStats] is a plain object: its own properties in creation
      order, over the members of [Object.prototype];
    - a response body is the object handed to [JSON.stringify], and the
      result [undefined] of the handler is [None];
    - [console.error] writes to the log only and is left out. *)

From Stdlib Require Import ZArith Ascii String List Lia Permutation.
From stdpp Require Import base option list strings pretty sorting gmap fin_maps.

Local Open Scope string_scope.

(** ** Data model *)

(** A key of the [sessions] map: [data.sessionId]. *)
Abbreviation Key := (option string).

Record Session := mkSession {
  sessionId : Key;
  firstSeen : Z;
  lastHeartbeat : Z;
  currentPage : option string
}.

(** The properties read from a parsed body that is not [null]. *)
Record Data := mkData {
  data_sessionId : Key;
  data_page : option string
}.

(** What [JSON.parse(event.body)] does with the body. *)
Inductive Body :=
  | Malformed              (* not JSON: [JSON.parse] throws a SyntaxError *)
  | JsonNull               (* the JSON text [null] (or an absent body) *)
  | JsonValue (d : Data).  (* any other JSON value, with the fields read *)

(** The value [JSON.parse] returns. *)
Inductive Parsed :=
  | PNull
  | PValue (d : Data).

(** An element of [pageViews]: [{...data, timestamp}]. *)
Record View := mkView {
  view_sessionId : Key;
  view_page : option string;
  view_timestamp : Z
}.

Record Event := mkEvent {
  httpMethod : string;
  path : string;
  body : Body
}.

(** A value stored in, or read through, the plain object [pageStats]. *)
Inductive JsVal :=
  | VUndefined
  | VNum (n : Z)
  | VStr (s : string)
  | VNaN
  | VFunction (name : string)   (* a built-in function of Object.prototype *)
  | VObjectPrototype.           (* Object.prototype itself *)

Record Stats := mkStats {
  onlineUsers : nat;
  todayViews : nat;
  totalViews : nat;
  popularPages : list (string * JsVal);
  timestamp : Z
}.

Inductive ResponseBody :=
  | Empty                           (* [''] *)
  | ErrorBody (error : string)      (* [{ error }] *)
  | SuccessBody (message : string)  (* [{ success: true, message }] *)
  | StatsBody (s : Stats).

Record Response := mkResponse {
  statusCode : Z;
  headers : list (string * string);
  response_body : ResponseBody
}.

Record Store := mkStore {
  sessions : gmap Key Session;
  pageViews : list View;
  lastCleanup : Z
}.

(** The store when the module has just been loaded at time [t0]. *)
Definition initial (t0 : Z) : Store :=
  {| sessions := ∅; pageViews := []; lastCleanup := t0 |}.

(** ** The monad of handler code *)

Inductive Error := SyntaxError | TypeError.

Inductive Outcome (A : Type) :=
  | Returned (a : A)
  | Thrown (e : Error).
Arguments Returned {A} a.
Arguments Thrown {A} e.

(** A computation reads the clock ([now]) and the store, and ends by
    returning or throwing, with the store as it left it. *)
Definition M (A : Type) : Type := Z → Store → Outcome A * Store.

#[global] Instance M_ret : MRet M := λ A a, λ _ st, (Returned a, st).
#[global] Instance M_bind : MBind M := λ A B f m, λ now st,
  match m now st with
  | (Returned a, st') => f a now st'
  | (Thrown e, st') => (Thrown e, st')
  end.
#[global] Instance M_fmap : FMap M := λ A B f m, x ← m; mret (f x).

Definition throw {A} (e : Error) : M A := λ _ st, (Thrown e, st).

Definition try_catch {A} (m : M A) (h : Error → M A) : M A := λ now st,
  match m now st with
  | (Returned a, st') => (Returned a, st')
  | (Thrown e, st') => h e now st'
  end.

Definition Date_now : M Z := λ now st, (Returned now, st).

Definition gets {A} (f : Store → A) : M A := λ _ st, (Returned (f st), st).
Definition modify (f : Store → Store) : M unit := λ _ st, (Returned tt, f st).

Definition when (b : bool) (m : M unit) : M unit := if b then m else mret tt.

Definition set_sessions (m : gmap Key Session) (st : Store) : Store :=
  {| sessions := m; pageViews := pageViews st; lastCleanup := lastCleanup st |}.
Definition set_pageViews (l : list View) (st : Store) : Store :=
  {| sessions := sessions st; pageViews := l; lastCleanup := lastCleanup st |}.
Definition set_lastCleanup (t : Z) (st : Store) : Store :=
  {| sessions := sessions st; pageViews := pageViews st; lastCleanup := t |}.

(** ** JavaScript built-ins the file uses *)

(** [JSON.parse(event.body)]. *)
Definition JSON_parse (b : Body) : M Parsed :=
  match b with
  | Malformed => throw SyntaxError
  | JsonNull => mret PNull
  | JsonValue d => mret (PValue d)
  end.

(** [data.sessionId]: reading a property of [null] throws a TypeError. *)
Definition get_sessionId (data : Parsed) : M Key :=
  match data with
  | PNull => throw TypeError
  | PValue d => mret (data_sessionId d)
  end.

(** [data.page]. *)
Definition get_page (data : Parsed) : M (option string) :=
  match data with
  | PNull => throw TypeError
  | PValue d => mret (data_page d)
  end.

(** [{...data, timestamp: t}]: spreading [null] copies nothing. *)
Definition spread_with_timestamp (data : Parsed) (t : Z) : View :=
  match data with
  | PNull => {| view_sessionId := None; view_page := None; view_timestamp := t |}
  | PValue d => {| view_sessionId := data_sessionId d; view_page := data_page d;
                   view_timestamp := t |}
  end.

(** [arr.slice(-n)]: the last [n] elements. *)
Definition slice_last {A} (n : nat) (l : list A) : list A :=
  drop (length l - n) l.

Definition string_drop (n : nat) (s : string) : string :=
  String.substring n (String.length s - n) s.

(** [s.replace(pat, rep)] with a string pattern: the first occurrence only. *)
Fixpoint replace_first (pat rep s : string) : string :=
  if String.prefix pat s then rep +:+ string_drop (String.length pat) s
  else match s with
       | EmptyString => EmptyString
       | String c s' => String c (replace_first pat rep s')
       end.

(** ** cleanup *)

Definition FIVE_MINUTES : Z := 5 * 60 * 1000.

(** The [for ... of sessions.entries()] loop: every entry is visited once
    and deleted from the map when it is stale. *)
Definition sweep (fiveMinutesAgo : Z) (m : gmap Key Session) : gmap Key Session :=
  map_fold (λ k session acc,
              if (lastHeartbeat session <? fiveMinutesAgo)%Z then delete k acc else acc)
           m m.

Definition cleanup : M unit :=
  now ← Date_now;
  let fiveMinutesAgo := (now - FIVE_MINUTES)%Z in
  modify (λ st, set_sessions (sweep fiveMinutesAgo (sessions st)) st);;
  modify (set_lastCleanup now).

(** ** The route handlers *)

Definition cors_headers : list (string * string) :=
  [ ("Access-Control-Allow-Origin", "*");
    ("Access-Control-Allow-Headers", "Content-Type");
    ("Access-Control-Allow-Methods", "GET, POST, OPTIONS");
    ("Content-Type", "application/json") ].

Definition handlePageView (event : Event) (hdrs : list (string * string)) : M Response :=
  data ← JSON_parse (body event);
  t ← Date_now;
  modify (λ st, set_pageViews (pageViews st ++ [spread_with_timestamp data t]) st);;
  len ← gets (λ st, length (pageViews st));
  when (1000 <? len)%nat
       (modify (λ st, set_pageViews (slice_last 1000 (pageViews st)) st));;
  sid ← get_sessionId data;
  known ← gets (λ st, sessions st !! sid);
  first ← match known with
          | Some old => mret (firstSeen old)
          | None => Date_now
          end;
  last ← Date_now;
  page ← get_page data;
  modify (λ st, set_sessions
                  (<[sid := {| sessionId := sid; firstSeen := first;
                               lastHeartbeat := last; currentPage := page |}]>
                     (sessions st)) st);;
  mret {| statusCode := 200; headers := hdrs;
          response_body := SuccessBody "Page view recorded" |}.

Definition handleHeartbeat (event : Event) (hdrs : list (string * string)) : M Response :=
  data ← JSON_parse (body event);
  sid ← get_sessionId data;
  known ← gets (λ st, sessions st !! sid);
  match known with
  | Some session =>
      t ← Date_now;
      let session' := {| sessionId := sessionId session; firstSeen := firstSeen session;
                         lastHeartbeat := t; currentPage := currentPage session |} in
      modify (λ st, set_sessions (<[sid := session']> (sessions st)) st)
  | None => mret tt
  end;;
  mret {| statusCode := 200; headers := hdrs;
          response_body := SuccessBody "Heartbeat received" |}.

Definition handleOffline (event : Event) (hdrs : list (string * string)) : M Response :=
  data ← JSON_parse (body event);
  sid ← get_sessionId data;
  modify (λ st, set_sessions (delete sid (sessions st)) st);;
  mret {| statusCode := 200; headers := hdrs;
          response_body := SuccessBody "User offline" |}.

(** ** Plain objects used as dictionaries: [pageStats]

    [pageStats] is created as [{}], so it inherits from [Object.prototype].
    Its own properties are kept in creation order; a read of a key it does
    not own falls through to the prototype. *)

Abbreviation JsObject := (list (string * JsVal)).

(** The function-valued data properties of [Object.prototype], each with
    the name of the function it holds. *)
Definition Object_prototype_functions : list (string * string) :=
  [ ("constructor", "Object");
    ("__defineGetter__", "__defineGetter__");
    ("__defineSetter__", "__defineSetter__");
    ("hasOwnProperty", "hasOwnProperty");
    ("__lookupGetter__", "__lookupGetter__");
    ("__lookupSetter__", "__lookupSetter__");
    ("isPrototypeOf", "isPrototypeOf");
    ("propertyIsEnumerable", "propertyIsEnumerable");
    ("toString", "toString");
    ("valueOf", "valueOf");
    ("toLocaleString", "toLocaleString") ].

Fixpoint assoc {A} (k : string) (o : list (string * A)) : option A :=
  match o with
  | [] => None
  | (k', v) :: o' => if String.eqb k k' then Some v else assoc k o'
  end.

(** [o[k]] as a read. [__proto__] is an accessor of [Object.prototype]
    whose getter returns the prototype of [o]. *)
Definition obj_get (o : JsObject) (k : string) : JsVal :=
  match assoc k o with
  | Some v => v
  | None =>
      if String.eqb k "__proto__" then VObjectPrototype
      else match assoc k Object_prototype_functions with
           | Some f => VFunction f
           | None => VUndefined
           end
  end.

Fixpoint own_set (o : JsObject) (k : string) (v : JsVal) : JsObject :=
  match o with
  | [] => [(k, v)]
  | (k', v') :: o' => if String.eqb k k' then (k', v) :: o' else (k', v') :: own_set o' k v
  end.

(** [o[k] = v]. The setter of [__proto__] ignores a value that is not an
    object ([stats.js] only assigns numbers and strings); any other key
    becomes, or updates, an own property. *)
Definition obj_set (o : JsObject) (k : string) (v : JsVal) : JsObject :=
  if String.eqb k "__proto__" then o else own_set o k v.

(** ToBoolean. *)
Definition truthy (v : JsVal) : bool :=
  match v with
  | VUndefined | VNaN => false
  | VNum n => negb (n =? 0)%Z
  | VStr s => negb (String.eqb s "")
  | VFunction _ | VObjectPrototype => true
  end.

(** [v || 0]. *)
Definition or_zero (v : JsVal) : JsVal := if truthy v then v else VNum 0.

(** The text a built-in function converts to. *)
Definition function_source (name : string) : string :=
  "function " +:+ name +:+ "() { [native code] }".

(** [v + 1]: a number is incremented; a string, and an object through its
    string conversion, has the digit appended; [undefined + 1] is NaN. *)
Definition plus_one (v : JsVal) : JsVal :=
  match v with
  | VNum n => VNum (n + 1)
  | VStr s => VStr (s +:+ "1")
  | VFunction f => VStr (function_source f +:+ "1")
  | VObjectPrototype => VStr "[object Object]1"
  | VUndefined | VNaN => VNaN
  end.

(** ToPropertyKey of [view.page]. *)
Definition property_key (page : option string) : string :=
  match page with
  | Some s => s
  | None => "undefined"
  end.

(** ToNumber, [None] for NaN. The strings [pageStats] can hold start with
    the word function or with an opening bracket ([stored_text_not_numeric]
    below) and are no numeric literals. *)
Definition to_number (v : JsVal) : option Z :=
  match v with
  | VNum n => Some n
  | _ => None
  end.

(** The comparator [([,a], [,b]) => b - a]; [None] is NaN. *)
Definition by_count_desc (x y : string * JsVal) : option Z :=
  match to_number (snd y), to_number (snd x) with
  | Some b, Some a => Some (b - a)%Z
  | _, _ => None
  end.

(** [Array.prototype.sort(cmp)]: a stable sort in which [x] goes after [y]
    when [cmp x y > 0]; a NaN result counts as 0.  For a consistent
    comparator every stable sort gives this list. *)
Definition goes_after {A} (cmp : A → A → option Z) (x y : A) : bool :=
  match cmp x y with
  | Some v => (0 <? v)%Z
  | None => false
  end.

Fixpoint sort_insert {A} (after : A → A → bool) (x : A) (l : list A) : list A :=
  match l with
  | [] => [x]
  | y :: l' => if after x y then y :: sort_insert after x l' else x :: y :: l'
  end.

Definition stable_sort {A} (after : A → A → bool) (l : list A) : list A :=
  foldr (sort_insert after) [] l.

Definition Array_sort {A} (cmp : A → A → option Z) (l : list A) : list A :=
  stable_sort (goes_after cmp) l.

(** A key is an array index when it is the canonical decimal form of an
    integer below 2^32 - 1. *)
Definition digit (c : ascii) : option N :=
  let n := N_of_ascii c in
  if ((48 <=? n) && (n <=? 57))%N then Some (n - 48)%N else None.

Fixpoint digits (acc : N) (s : string) : option N :=
  match s with
  | EmptyString => Some acc
  | String c s' =>
      match digit c with
      | Some d => digits (10 * acc + d)%N s'
      | None => None
      end
  end.

Definition array_index (s : string) : option N :=
  match s with
  | EmptyString => None
  | String c s' =>
      if Ascii.eqb c "0" && negb (String.eqb s' "") then None
      else match digits 0 s with
           | Some n => if (n <? 2 ^ 32 - 1)%N then Some n else None
           | None => None
           end
  end.

Definition index_after (x y : string * JsVal) : bool :=
  match array_index (fst x), array_index (fst y) with
  | Some i, Some j => (j <? i)%N
  | _, _ => false
  end.

(** [Object.entries(o)]: array-index keys in ascending order, then the
    other keys in creation order. *)
Definition Object_entries (o : JsObject) : list (string * JsVal) :=
  stable_sort index_after (List.filter (λ e, bool_decide (is_Some (array_index (fst e)))) o)
  ++ List.filter (λ e, negb (bool_decide (is_Some (array_index (fst e))))) o.

(** The body of [todayPages.forEach]. *)
Definition count_view (pageStats : JsObject) (view : View) : JsObject :=
  let k := property_key (view_page view) in
  obj_set pageStats k (plus_one (or_zero (obj_get pageStats k))).

Section Handler.

(** [new Date(t).toDateString()]: the calendar day of an instant in the
    time zone of the server. *)
Variable toDateString : Z → string.

Definition is_today (today : string) (view : View) : bool :=
  String.eqb (toDateString (view_timestamp view)) today.

Definition getCurrentStats (hdrs : list (string * string)) : M Response :=
  _ ← Date_now;
  today ← toDateString <$> Date_now;
  todayViews ← gets (λ st, length (List.filter (is_today today) (pageViews st)));
  onlineUsers ← gets (λ st, size (sessions st));
  totalViews ← gets (λ st, length (pageViews st));
  todayPages ← gets (λ st, List.filter (is_today today) (pageViews st));
  let pageStats := foldl count_view [] todayPages in
  let popularPages := take 10 (Array_sort by_count_desc (Object_entries pageStats)) in
  t ← Date_now;
  mret {| statusCode := 200; headers := hdrs;
          response_body := StatsBody {| onlineUsers := onlineUsers;
                                        todayViews := todayViews;
                                        totalViews := totalViews;
                                        popularPages := popularPages;
                                        timestamp := t |} |}.

(** [event.path.replace('/.netlify/functions/stats', '')]. *)
Definition route (event : Event) : string :=
  replace_first "/.netlify/functions/stats" "" (path event).

(** The lazy sweep: [if (Date.now() - lastCleanup > 60000) cleanup()]. *)
Definition sweep_if_due : M unit :=
  t ← Date_now;
  last ← gets lastCleanup;
  when (60000 <? t - last)%Z cleanup.

(** The [switch]. A [case] whose method test fails reaches [break], and
    the function then ends without a [return]: the result is
    [undefined], here [None]. *)
Definition dispatch (event : Event) (hdrs : list (string * string))
  : M (option Response) :=
  let path := route event in
  let method := httpMethod event in
  if String.eqb path "/pageview" then
    if String.eqb method "POST" then Some <$> handlePageView event hdrs
    else mret None
  else if String.eqb path "/heartbeat" then
    if String.eqb method "POST" then Some <$> handleHeartbeat event hdrs
    else mret None
  else if String.eqb path "/offline" then
    if String.eqb method "POST" then Some <$> handleOffline event hdrs
    else mret None
  else if String.eqb path "/current" then
    if String.eqb method "GET" then Some <$> getCurrentStats hdrs
    else mret None
  else
    mret (Some {| statusCode := 404; headers := hdrs;
                  response_body := ErrorBody "Not found" |}).

(** [exports.handler]. *)
Definition handler (event : Event) : M (option Response) :=
  let hdrs := cors_headers in
  if String.eqb (httpMethod event) "OPTIONS" then
    mret (Some {| statusCode := 200; headers := hdrs; response_body := Empty |})
  else
    sweep_if_due;;
    try_catch (dispatch event hdrs)
              (λ error, mret (Some {| statusCode := 500; headers := hdrs;
                                      response_body := ErrorBody "Internal server error" |})).

End Handler.

(** Running a handler from a store at an instant. *)
Definition run {A} (m : M A) (now : Z) (st : Store) : Outcome A * Store := m now st.

(** A sample [toDateString]: the day number in UTC. *)
Definition utc_day (t : Z) : string := pretty (t `div` 86400000)%Z.

Definition GET (p : string) : Event :=
  {| httpMethod := "GET"; path := "/.netlify/functions/stats" +:+ p; body := JsonNull |}.
Definition POST (p : string) (b : Body) : Event :=
  {| httpMethod := "POST"; path := "/.netlify/functions/stats" +:+ p; body := b |}.
Definition json (sid page : string) : Body :=
  JsonValue {| data_sessionId := Some sid; data_page := Some page |}.

(** * Vocabulary of the statements *)

(** What [pageViews.push(v)] followed by the truncation leaves. *)
Definition push_view (v : View) (l : list View) : list View :=
  if (1000 <? length (l ++ [v]))%nat then slice_last 1000 (l ++ [v]) else l ++ [v].

(** The session [handlePageView] writes for the data [d] at [now]. *)
Definition upsert (d : Data) (now : Z) (m : gmap Key Session) : gmap Key Session :=
  <[data_sessionId d :=
      {| sessionId := data_sessionId d;
         firstSeen := match m !! data_sessionId d with
                      | Some old => firstSeen old
                      | None => now
                      end;
         lastHeartbeat := now;
         currentPage := data_page d |}]> m.

(** The session [handleHeartbeat] writes back. *)
Definition refresh (k : Key) (now : Z) (m : gmap Key Session) : gmap Key Session :=
  match m !! k with
  | Some s => <[k := {| sessionId := sessionId s; firstSeen := firstSeen s;
                        lastHeartbeat := now; currentPage := currentPage s |}]> m
  | None => m
  end.

(** The store a sweep at [now] leaves. *)
Definition swept (now : Z) (st : Store) : Store :=
  {| sessions := sweep (now - FIVE_MINUTES) (sessions st);
     pageViews := pageViews st;
     lastCleanup := now |}.

(** The store in which the route handler of a request at [now] runs. *)
Definition before_dispatch (now : Z) (st : Store) : Store :=
  if (60000 <? now - lastCleanup st)%Z then swept now st else st.

Definition ok (hdrs : list (string * string)) (message : string) : Response :=
  {| statusCode := 200; headers := hdrs; response_body := SuccessBody message |}.
Definition not_found : Response :=
  {| statusCode := 404; headers := cors_headers; response_body := ErrorBody "Not found" |}.
Definition internal_error : Response :=
  {| statusCode := 500; headers := cors_headers;
     response_body := ErrorBody "Internal server error" |}.
Definition preflight : Response :=
  {| statusCode := 200; headers := cors_headers; response_body := Empty |}.

(** The [try] block with its [catch]. *)
Definition caught (m : M (option Response)) : M (option Response) :=
  try_catch m (λ _, mret (Some internal_error)).

(** The routes of the [switch] and the method each one answers. *)
Definition route_method (r : string) : option string :=
  if String.eqb r "/pageview" then Some "POST"
  else if String.eqb r "/heartbeat" then Some "POST"
  else if String.eqb r "/offline" then Some "POST"
  else if String.eqb r "/current" then Some "GET"
  else None.

(** A request that touches the session [k]: a page view or a heartbeat
    carrying that [sessionId]. *)
Definition touches (k : Key) (event : Event) : Prop :=
  httpMethod event = "POST"
  ∧ (route event = "/pageview" ∨ route event = "/heartbeat")
  ∧ ∃ d, body event = JsonValue d ∧ data_sessionId d = k.

(** The store after the [switch] has run the route handler of a request. *)
Definition routed (tds : Z → string) (st : Store) (req : Z * Event) : Store :=
  snd (run (dispatch tds (snd req) cors_headers) (fst req) st).

(** The time of the last request of a list, [t] when there is none. *)
Definition last_call (reqs : list (Z * Event)) (t : Z) : Z :=
  foldl (λ _ req, fst req) t reqs.

(** The store after the handler has served a request. *)
Definition serve (tds : Z → string) (st : Store) (req : Z * Event) : Store :=
  snd (run (handler tds (snd req)) (fst req) st).

(** The view a request submits: a POST [/pageview] whose body
    [JSON.parse] accepts submits that body with the time of arrival. *)
Definition submitted (req : Z * Event) : option View :=
  if String.eqb (httpMethod (snd req)) "POST" && String.eqb (route (snd req)) "/pageview" then
    match body (snd req) with
    | Malformed => None
    | JsonNull => Some (spread_with_timestamp PNull (fst req))
    | JsonValue d => Some (spread_with_timestamp (PValue d) (fst req))
    end
  else None.

(** The views submitted by a list of requests, in arrival order. *)
Definition submitted_views (reqs : list (Z * Event)) : list View := omap submitted reqs.

(** Keys that [pageStats] inherits from [Object.prototype]. *)
Definition inherited (k : string) : bool :=
  String.eqb k "__proto__" || bool_decide (is_Some (assoc k Object_prototype_functions)).

(** The pages of the views are all ordinary keys. *)
Definition plain_pages (views : list View) : Prop :=
  Forall (λ v, inherited (property_key (view_page v)) = false) views.

(** How many of the views have the page key [k]. *)
Definition occurrences (k : string) (views : list View) : nat :=
  length (List.filter (λ v, String.eqb (property_key (view_page v)) k) views).

(** [pageStats] after the [forEach] over the views. *)
Definition pageStats_of (views : list View) : JsObject := foldl count_view [] views.

(** [x] may stand before [y] in a list that is descending by count; a
    count that is not a number compares as equal to everything. *)
Definition count_desc (x y : string * JsVal) : Prop :=
  match to_number (snd x), to_number (snd y) with
  | Some a, Some b => (b ≤ a)%Z
  | _, _ => True
  end.

(** The list [getCurrentStats] reports for the views of today. *)
Definition popular (views : list View) : list (string * JsVal) :=
  take 10 (Array_sort by_count_desc (Object_entries (pageStats_of views))).

(** Requests that keep a session alive: each arrives no more than five
    minutes after the time [t] of the one before. *)
Fixpoint paced (t : Z) (reqs : list (Z * Event)) : Prop :=
  match reqs with
  | [] => True
  | req :: reqs' => (fst req - t ≤ FIVE_MINUTES)%Z ∧ paced (fst req) reqs'
  end.

(** A text no numeric literal starts like. *)
Definition not_numeric (s : string) : Prop :=
  match s with
  | String c _ => c = "f"%char ∨ c = "["%char
  | EmptyString => False
  end.

(** What [pageStats] stores: a number, or such a text. *)
Definition stored (v : JsVal) : Prop :=
  match v with
  | VNum _ => True
  | VStr s => not_numeric s
  | _ => False
  end.

(** The count of an entry, when it is a number. *)
Definition count_of (e : string * JsVal) : Z :=
  match snd e with
  | VNum n => n
  | _ => 0
  end.

(** The views of [st] that [getCurrentStats] takes as today's at [now]. *)
Definition today_views (tds : Z → string) (now : Z) (st : Store) : list View :=
  List.filter (is_today tds (tds now)) (pageViews st).

(** The path under which Netlify mounts the function. *)
Definition MOUNT : string := "/.netlify/functions/stats".

(** What a request does to the session table its route handler finds. *)
Definition session_effect (event : Event) (now : Z) (m : gmap Key Session)
  : gmap Key Session :=
  if String.eqb (httpMethod event) "POST" then
    match body event with
    | JsonValue d =>
        if String.eqb (route event) "/pageview" then upsert d now m
        else if String.eqb (route event) "/heartbeat" then refresh (data_sessionId d) now m
        else if String.eqb (route event) "/offline" then delete (data_sessionId d) m
        else m
    | _ => m
    end
  else m.

(** Request times that never go back, from [t] on. *)
Fixpoint nondecreasing (t : Z) (reqs : list (Z * Event)) : Prop :=
  match reqs with
  | [] => True
  | req :: reqs' => (t ≤ fst req)%Z ∧ nondecreasing (fst req) reqs'
  end.

(** A session that a sweep at [now] removes. *)
Definition stale (now : Z) (s : Session) : Prop :=
  (lastHeartbeat s < now - FIVE_MINUTES)%Z.
#[global] Instance stale_dec (now : Z) (s : Session) : Decision (stale now s) :=
  decide (lastHeartbeat s < now - FIVE_MINUTES)%Z.

(** The request is a page view carrying the [sessionId] [k]. *)
Definition pageview_for (k : Key) (event : Event) : Prop :=
  httpMethod event = "POST" ∧ route event = "/pageview"
  ∧ ∃ d, body event = JsonValue d ∧ data_sessionId d = k.

(** Nothing in the store lies after [t]: sessions are first seen no later
    than their last heartbeat, heartbeats, the last sweep and the views are
    no later than [t], and the views are in order of time. *)
Definition timely (t : Z) (st : Store) : Prop :=
  map_Forall (λ _ s, (firstSeen s ≤ lastHeartbeat s ∧ lastHeartbeat s ≤ t)%Z) (sessions st)
  ∧ (lastCleanup st ≤ t)%Z
  ∧ Forall (λ v, (view_timestamp v ≤ t)%Z) (pageViews st)
  ∧ StronglySorted (λ a b, (view_timestamp a ≤ view_timestamp b)%Z) (pageViews st).

(** The page keys of the views, one for each view. *)
Definition page_keys (views : list View) : list string :=
  (λ v, property_key (view_page v)) <$> views.

(** * Properties *)

(** ** Running the monad *)

Ltac unfold_monad :=
  cbv beta iota delta
    [run mbind M_bind fmap M_fmap mret M_ret gets modify when Date_now throw
     try_catch JSON_parse get_sessionId get_page fst snd] in *.

Lemma set_sessions_id st : set_sessions (sessions st) st = st.
Proof. by destruct st. Qed.

Lemma handlePageView_value event hdrs now st d :
  body event = JsonValue d →
  run (handlePageView event hdrs) now st =
    (Returned {| statusCode := 200; headers := hdrs;
                 response_body := SuccessBody "Page view recorded" |},
     {| sessions := upsert d now (sessions st);
        pageViews := push_view (spread_with_timestamp (PValue d) now) (pageViews st);
        lastCleanup := lastCleanup st |}).
Proof.
  intros Hb. unfold handlePageView, push_view, upsert. rewrite Hb. unfold_monad.
  cbn [pageViews set_pageViews].
  destruct (1000 <? _)%nat; cbn [sessions pageViews set_pageViews set_sessions lastCleanup];
    destruct (sessions st !! data_sessionId d); reflexivity.
Qed.

Lemma handlePageView_null event hdrs now st :
  body event = JsonNull →
  run (handlePageView event hdrs) now st =
    (Thrown TypeError,
     set_pageViews (push_view (spread_with_timestamp PNull now) (pageViews st)) st).
Proof.
  intros Hb. unfold handlePageView, push_view. rewrite Hb. unfold_monad.
  cbn [pageViews set_pageViews].
  destruct (1000 <? _)%nat; reflexivity.
Qed.

Lemma handlePageView_malformed event hdrs now st :
  body event = Malformed →
  run (handlePageView event hdrs) now st = (Thrown SyntaxError, st).
Proof. intros Hb. unfold handlePageView. rewrite Hb. reflexivity. Qed.

Lemma handleHeartbeat_value event hdrs now st d :
  body event = JsonValue d →
  run (handleHeartbeat event hdrs) now st =
    (Returned {| statusCode := 200; headers := hdrs;
                 response_body := SuccessBody "Heartbeat received" |},
     set_sessions (refresh (data_sessionId d) now (sessions st)) st).
Proof.
  intros Hb. unfold handleHeartbeat, refresh. rewrite Hb. unfold_monad.
  destruct (sessions st !! data_sessionId d); cbn; [reflexivity|].
  by rewrite set_sessions_id.
Qed.

Lemma handleHeartbeat_null event hdrs now st :
  body event = JsonNull →
  run (handleHeartbeat event hdrs) now st = (Thrown TypeError, st).
Proof. intros Hb. unfold handleHeartbeat. rewrite Hb. reflexivity. Qed.

Lemma handleHeartbeat_malformed event hdrs now st :
  body event = Malformed →
  run (handleHeartbeat event hdrs) now st = (Thrown SyntaxError, st).
Proof. intros Hb. unfold handleHeartbeat. rewrite Hb. reflexivity. Qed.

Lemma handleOffline_value event hdrs now st d :
  body event = JsonValue d →
  run (handleOffline event hdrs) now st =
    (Returned {| statusCode := 200; headers := hdrs;
                 response_body := SuccessBody "User offline" |},
     set_sessions (delete (data_sessionId d) (sessions st)) st).
Proof. intros Hb. unfold handleOffline. rewrite Hb. reflexivity. Qed.

Lemma handleOffline_null event hdrs now st :
  body event = JsonNull →
  run (handleOffline event hdrs) now st = (Thrown TypeError, st).
Proof. intros Hb. unfold handleOffline. rewrite Hb. reflexivity. Qed.

Lemma handleOffline_malformed event hdrs now st :
  body event = Malformed →
  run (handleOffline event hdrs) now st = (Thrown SyntaxError, st).
Proof. intros Hb. unfold handleOffline. rewrite Hb. reflexivity. Qed.

(** [getCurrentStats] only reads. *)
Lemma getCurrentStats_run tds hdrs now st :
  ∃ stats,
    run (getCurrentStats tds hdrs) now st =
      (Returned {| statusCode := 200; headers := hdrs; response_body := StatsBody stats |}, st)
    ∧ onlineUsers stats = size (sessions st)
    ∧ totalViews stats = length (pageViews st)
    ∧ todayViews stats = length (List.filter (is_today tds (tds now)) (pageViews st))
    ∧ popularPages stats =
        take 10 (Array_sort by_count_desc
                   (Object_entries
                      (foldl count_view []
                         (List.filter (is_today tds (tds now)) (pageViews st)))))
    ∧ timestamp stats = now.
Proof.
  unfold getCurrentStats. unfold_monad. cbv zeta.
  eexists. split; [reflexivity|]. cbn. done.
Qed.

(** ** The sweep *)

Lemma sweep_fold_lookup (c : Z) (b m : gmap Key Session) (k : Key) :
  map_fold (λ k session acc,
              if (lastHeartbeat session <? c)%Z then delete k acc else acc) b m !! k
  = match m !! k with
    | Some s => if (lastHeartbeat s <? c)%Z then None else b !! k
    | None => b !! k
    end.
Proof.
  revert k.
  apply (map_fold_weak_ind
           (λ r m, ∀ k, r !! k = match m !! k with
                                 | Some s => if (lastHeartbeat s <? c)%Z then None else b !! k
                                 | None => b !! k
                                 end)); clear m.
  - intros k. by rewrite lookup_empty.
  - intros i x m r Hi IH k.
    destruct (decide (i = k)) as [->|Hne].
    + rewrite lookup_insert_eq. specialize (IH k). rewrite Hi in IH.
      destruct (lastHeartbeat x <? c)%Z; [apply lookup_delete_eq | done].
    + rewrite lookup_insert_ne by done. rewrite <- IH.
      destruct (lastHeartbeat x <? c)%Z; [by rewrite lookup_delete_ne | done].
Qed.

Lemma sweep_lookup (c : Z) (m : gmap Key Session) (k : Key) :
  sweep c m !! k
  = match m !! k with
    | Some s => if (lastHeartbeat s <? c)%Z then None else Some s
    | None => None
    end.
Proof.
  unfold sweep. rewrite sweep_fold_lookup.
  destruct (m !! k) eqn:E; [by destruct (_ <? _)%Z | done].
Qed.

(** The loop is a filter: it keeps the sessions that are not stale. *)
Lemma sweep_filter (c : Z) (m : gmap Key Session) :
  sweep c m = filter (λ ks, ¬ (lastHeartbeat (snd ks) < c)%Z) m.
Proof.
  apply map_eq. intros k. rewrite sweep_lookup, map_lookup_filter.
  destruct (m !! k) as [s|] eqn:E; cbn; [|done].
  destruct (Z.ltb_spec (lastHeartbeat s) c).
  - rewrite option_guard_False; [done | cbn; lia].
  - rewrite option_guard_True; [done | cbn; lia].
Qed.

Lemma cleanup_run now st : run cleanup now st = (Returned tt, swept now st).
Proof. reflexivity. Qed.

Lemma sweep_if_due_run now st : run sweep_if_due now st = (Returned tt, before_dispatch now st).
Proof.
  unfold sweep_if_due, before_dispatch. unfold_monad.
  destruct (60000 <? now - lastCleanup st)%Z; reflexivity.
Qed.

(** ** The handler, route by route *)

Lemma handler_options tds event now st :
  httpMethod event = "OPTIONS" →
  run (handler tds event) now st = (Returned (Some preflight), st).
Proof. intros H. unfold handler. rewrite H. reflexivity. Qed.

Lemma handler_not_options tds event now st :
  httpMethod event ≠ "OPTIONS" →
  run (handler tds event) now st =
    run (caught (dispatch tds event cors_headers)) now (before_dispatch now st).
Proof.
  intros H. unfold handler. apply String.eqb_neq in H. rewrite H.
  unfold run at 1. unfold mbind at 1. unfold M_bind.
  pose proof (sweep_if_due_run now st) as E. unfold run in E. rewrite E.
  reflexivity.
Qed.

Lemma fmap_Some_run {A} (m : M A) now st :
  run (Some <$> m) now st =
    match run m now st with
    | (Returned a, st') => (Returned (Some a), st')
    | (Thrown e, st') => (Thrown e, st')
    end.
Proof. unfold_monad. destruct (m now st) as [[a|e] st']; reflexivity. Qed.

Lemma caught_run (m : M (option Response)) now st :
  run (caught m) now st =
    match run m now st with
    | (Returned r, st') => (Returned r, st')
    | (Thrown e, st') => (Returned (Some internal_error), st')
    end.
Proof. unfold caught. unfold_monad. destruct (m now st) as [[a|e] st']; reflexivity. Qed.

Lemma dispatch_pageview tds event hdrs :
  route event = "/pageview" → httpMethod event = "POST" →
  dispatch tds event hdrs = (Some <$> handlePageView event hdrs).
Proof. intros Hr Hm. unfold dispatch. rewrite Hr, Hm. reflexivity. Qed.

Lemma dispatch_heartbeat tds event hdrs :
  route event = "/heartbeat" → httpMethod event = "POST" →
  dispatch tds event hdrs = (Some <$> handleHeartbeat event hdrs).
Proof. intros Hr Hm. unfold dispatch. rewrite Hr, Hm. reflexivity. Qed.

Lemma dispatch_offline tds event hdrs :
  route event = "/offline" → httpMethod event = "POST" →
  dispatch tds event hdrs = (Some <$> handleOffline event hdrs).
Proof. intros Hr Hm. unfold dispatch. rewrite Hr, Hm. reflexivity. Qed.

Lemma dispatch_current tds event hdrs :
  route event = "/current" → httpMethod event = "GET" →
  dispatch tds event hdrs = (Some <$> getCurrentStats tds hdrs).
Proof. intros Hr Hm. unfold dispatch. rewrite Hr, Hm. reflexivity. Qed.

Lemma dispatch_unknown tds event hdrs :
  route_method (route event) = None →
  dispatch tds event hdrs =
    mret (Some {| statusCode := 404; headers := hdrs; response_body := ErrorBody "Not found" |}).
Proof.
  unfold route_method, dispatch. intros H.
  repeat (destruct (String.eqb (route event) _); [discriminate|]). reflexivity.
Qed.

Lemma dispatch_wrong_method tds event hdrs m :
  route_method (route event) = Some m → httpMethod event ≠ m →
  dispatch tds event hdrs = mret None.
Proof.
  unfold route_method, dispatch. intros H Hm.
  repeat (destruct (String.eqb (route event) _);
          [injection H as <-; apply String.eqb_neq in Hm; rewrite Hm; reflexivity|]).
  discriminate.
Qed.

Lemma dispatch_headers tds event hdrs now st r st' :
  run (dispatch tds event hdrs) now st = (Returned (Some r), st') → headers r = hdrs.
Proof.
  unfold dispatch.
  repeat match goal with
         | |- context [if String.eqb ?a ?b then _ else _] => destruct (String.eqb a b)
         end;
    try (rewrite fmap_Some_run);
    try (unfold run, mret, M_ret; first [congruence | intros [= <- _]; reflexivity]).
  all: try (destruct (getCurrentStats_run tds hdrs now st) as (stats & -> & _);
            intros [= <- _]; reflexivity).
  all: destruct (body event) as [| |d] eqn:E;
    first [ rewrite handlePageView_malformed by done
          | rewrite handlePageView_null by done
          | rewrite (handlePageView_value _ _ _ _ d) by done
          | rewrite handleHeartbeat_malformed by done
          | rewrite handleHeartbeat_null by done
          | rewrite (handleHeartbeat_value _ _ _ _ d) by done
          | rewrite handleOffline_malformed by done
          | rewrite handleOffline_null by done
          | rewrite (handleOffline_value _ _ _ _ d) by done ];
    first [ congruence | intros [= <- _]; reflexivity ].
Qed.

(** The handler itself never throws: what the route handlers throw is caught. *)
Lemma handler_returns tds event now st :
  ∃ o st', run (handler tds event) now st = (Returned o, st').
Proof.
  destruct (decide (httpMethod event = "OPTIONS")) as [H|H].
  - rewrite handler_options by done. eauto.
  - rewrite handler_not_options, caught_run by done.
    destruct (run (dispatch tds event cors_headers) now (before_dispatch now st)) as [[o|e] st'];
      eauto.
Qed.

Lemma handler_wrong_method tds event m now st :
  route_method (route event) = Some m → httpMethod event ≠ m →
  httpMethod event ≠ "OPTIONS" →
  run (handler tds event) now st = (Returned None, before_dispatch now st).
Proof.
  intros Hr Hm Ho. rewrite handler_not_options, caught_run by done.
  rewrite (dispatch_wrong_method _ _ _ m) by done. reflexivity.
Qed.

Lemma handler_unknown_route tds event now st :
  route_method (route event) = None → httpMethod event ≠ "OPTIONS" →
  run (handler tds event) now st = (Returned (Some not_found), before_dispatch now st).
Proof.
  intros Hr Ho. rewrite handler_not_options, caught_run by done.
  rewrite dispatch_unknown by done. reflexivity.
Qed.

(** ** C1: a known path with the wrong method *)

(** C1, as the code has it. A GET on [/pageview] matches the [case], fails
    the method test and leaves the [switch] through [break]; the handler
    ends without a [return], so its result is [undefined] ([None]), not the
    404 response of an unmatched path. *)
Theorem C1_get_pageview_returns_undefined (tds : Z → string) (now : Z) (st : Store) :
  run (handler tds (GET "/pageview")) now st = (Returned None, before_dispatch now st)
  ∧ run (handler tds (GET "/nowhere")) now st = (Returned (Some not_found), before_dispatch now st).
Proof.
  split.
  - apply (handler_wrong_method _ _ "POST"); [reflexivity | discriminate | discriminate].
  - apply handler_unknown_route; [reflexivity | discriminate].
Qed.

(** ** C9: preflight and response headers *)

(** C9. An OPTIONS request is answered with status 200 and an empty body,
    the store untouched; and every response the handler returns carries
    the four CORS and content-type headers. *)
Theorem C9_preflight_and_headers (tds : Z → string) (event : Event) (now : Z) (st : Store) :
  (httpMethod event = "OPTIONS" →
   run (handler tds event) now st =
     (Returned (Some {| statusCode := 200; headers := cors_headers; response_body := Empty |}),
      st))
  ∧ (∀ r, fst (run (handler tds event) now st) = Returned (Some r) →
          headers r = [ ("Access-Control-Allow-Origin", "*");
                        ("Access-Control-Allow-Headers", "Content-Type");
                        ("Access-Control-Allow-Methods", "GET, POST, OPTIONS");
                        ("Content-Type", "application/json") ]).
Proof.
  split; [apply handler_options|].
  intros r. destruct (decide (httpMethod event = "OPTIONS")) as [H|H].
  - rewrite handler_options by done. cbn. intros [= <-]. reflexivity.
  - rewrite handler_not_options, caught_run by done.
    destruct (run (dispatch tds event cors_headers) now (before_dispatch now st))
      as [[o|e] st'] eqn:E; cbn.
    + intros [= ->]. by apply dispatch_headers in E.
    + intros [= <-]. reflexivity.
Qed.

Lemma C9_preflight_and_headers_witness :
  run (handler utc_day (mkEvent "OPTIONS" "/.netlify/functions/stats/pageview" Malformed))
      5 (initial 0)
  = (Returned (Some preflight), initial 0)
  ∧ headers internal_error = cors_headers.
Proof.
  pose proof (C9_preflight_and_headers utc_day
                (mkEvent "OPTIONS" "/.netlify/functions/stats/pageview" Malformed)
                5 (initial 0)) as [H1 _].
  pose proof (C9_preflight_and_headers utc_day (POST "/pageview" Malformed) 5 (initial 0))
    as [_ H2].
  split; [apply H1; reflexivity | apply H2; reflexivity].
Defined.

(** ** C10: the summary only reads *)

(** C10. [getCurrentStats] returns a response and leaves the store as it
    found it; on a GET [/current] request the only change to the store is
    the one the lazy sweep made before. *)
Theorem C10_getCurrentStats_read_only (tds : Z → string) (hdrs : list (string * string))
    (now : Z) (st : Store) :
  (∃ r, run (getCurrentStats tds hdrs) now st = (Returned r, st))
  ∧ (∀ event, httpMethod event = "GET" → route event = "/current" →
       snd (run (handler tds event) now st) = before_dispatch now st).
Proof.
  split.
  - destruct (getCurrentStats_run tds hdrs now st) as (stats & E & _). eauto.
  - intros event Hm Hr.
    rewrite handler_not_options, caught_run by (rewrite Hm; discriminate).
    rewrite dispatch_current, fmap_Some_run by done.
    destruct (getCurrentStats_run tds cors_headers now (before_dispatch now st)) as (stats & -> & _).
    reflexivity.
Qed.

Lemma C10_getCurrentStats_read_only_witness :
  snd (run (handler utc_day (GET "/current")) 5 (initial 0)) = initial 0.
Proof.
  pose proof (C10_getCurrentStats_read_only utc_day cors_headers 5 (initial 0)) as [_ H].
  apply (H (GET "/current")); reflexivity.
Defined.

(** ** C4: heartbeat *)

Lemma handler_heartbeat tds event now st d :
  httpMethod event = "POST" → route event = "/heartbeat" → body event = JsonValue d →
  run (handler tds event) now st =
    (Returned (Some (ok cors_headers "Heartbeat received")),
     set_sessions (refresh (data_sessionId d) now (sessions (before_dispatch now st)))
                  (before_dispatch now st)).
Proof.
  intros Hm Hr Hb.
  rewrite handler_not_options, caught_run by (rewrite Hm; discriminate).
  rewrite dispatch_heartbeat, fmap_Some_run by done.
  by rewrite (handleHeartbeat_value _ _ _ _ d).
Qed.

(** C4 fails for the JSON text [null]: it is well-formed JSON, but reading
    [sessionId] from [null] throws, and the answer is the 500 response. *)
Lemma C4_null_body_counterexample :
  run (handler utc_day (POST "/heartbeat" JsonNull)) 5 (initial 0)
  = (Returned (Some internal_error), initial 0)
  ∧ statusCode internal_error ≠ 200%Z.
Proof. split; [reflexivity | discriminate]. Qed.

(** C4, amended. For a POST [/heartbeat] whose body is a JSON value other
    than [null], [handleHeartbeat] returns status 200 with the message
    Heartbeat received; a session the table holds under the given
    [sessionId] gets [lastHeartbeat] set to now and keeps its other fields,
    and without such a session the store is left exactly as it was.
    [exports.handler] answers such a request with that response, after
    running [handleHeartbeat] on the store its lazy sweep leaves. *)
Theorem C4_heartbeat_refreshes_or_ignores (tds : Z → string) (event : Event)
    (hdrs : list (string * string)) (now : Z) (st : Store) (d : Data) :
  body event = JsonValue d →
  (∃ st',
     run (handleHeartbeat event hdrs) now st =
       (Returned {| statusCode := 200; headers := hdrs;
                    response_body := SuccessBody "Heartbeat received" |}, st')
     ∧ pageViews st' = pageViews st
     ∧ lastCleanup st' = lastCleanup st
     ∧ match sessions st !! data_sessionId d with
       | Some s =>
           sessions st' =
             <[data_sessionId d := {| sessionId := sessionId s; firstSeen := firstSeen s;
                                      lastHeartbeat := now; currentPage := currentPage s |}]>
               (sessions st)
       | None => st' = st
       end)
  ∧ (httpMethod event = "POST" → route event = "/heartbeat" →
     run (handler tds event) now st =
       (Returned (Some {| statusCode := 200; headers := cors_headers;
                          response_body := SuccessBody "Heartbeat received" |}),
        snd (run (handleHeartbeat event cors_headers) now (before_dispatch now st)))).
Proof.
  intros Hb. split.
  - rewrite (handleHeartbeat_value _ _ _ _ d) by done.
    eexists. split; [reflexivity|]. unfold refresh. cbn.
    destruct (sessions st !! data_sessionId d); cbn; [done|].
    by rewrite set_sessions_id.
  - intros Hm Hr. rewrite (handler_heartbeat _ _ _ _ d) by done.
    by rewrite (handleHeartbeat_value _ _ _ _ d).
Qed.

Lemma C4_heartbeat_refreshes_or_ignores_witness :
  run (handler utc_day (POST "/heartbeat" (json "ghost" "/"))) 5 (initial 0)
  = (Returned (Some (ok cors_headers "Heartbeat received")), initial 0).
Proof.
  destruct (C4_heartbeat_refreshes_or_ignores utc_day (POST "/heartbeat" (json "ghost" "/"))
              cors_headers 5 (initial 0) (mkData (Some "ghost") (Some "/")) eq_refl)
    as [_ H].
  exact (H eq_refl eq_refl).
Defined.

(** ** C5: offline *)

(** C5. A POST [/offline] answers 200 with the message User offline and
    deletes the given [sessionId] from the session table, which is a no-op
    when the table has no such session; a GET [/current] served next, at
    any time, reports as [onlineUsers] the size of a table that does not
    hold that [sessionId]. *)
Theorem C5_offline_removes_session (tds : Z → string) (event : Event) (now : Z)
    (st : Store) (d : Data) :
  httpMethod event = "POST" → route event = "/offline" → body event = JsonValue d →
  ∃ st1,
    run (handler tds event) now st = (Returned (Some (ok cors_headers "User offline")), st1)
    ∧ sessions st1 = delete (data_sessionId d) (sessions (before_dispatch now st))
    ∧ (sessions (before_dispatch now st) !! data_sessionId d = None → st1 = before_dispatch now st)
    ∧ ∀ event2 now2,
        httpMethod event2 = "GET" → route event2 = "/current" →
        ∃ stats st2,
          run (handler tds event2) now2 st1 =
            (Returned (Some {| statusCode := 200; headers := cors_headers;
                               response_body := StatsBody stats |}), st2)
          ∧ sessions st2 !! data_sessionId d = None
          ∧ onlineUsers stats = size (sessions st2).
Proof.
  intros Hm Hr Hb.
  rewrite handler_not_options, caught_run by (rewrite Hm; discriminate).
  rewrite dispatch_offline, fmap_Some_run by done.
  rewrite (handleOffline_value _ _ _ _ d) by done.
  eexists. split; [reflexivity|]. split; [reflexivity|]. split.
  - intros Hk. rewrite delete_id by done. apply set_sessions_id.
  - intros event2 now2 Hm2 Hr2.
    rewrite handler_not_options, caught_run by (rewrite Hm2; discriminate).
    rewrite dispatch_current, fmap_Some_run by done.
    match goal with
    | |- context [run (getCurrentStats ?t ?h) ?n ?s] =>
        destruct (getCurrentStats_run t h n s) as (stats & -> & Hon & _)
    end.
    eexists _, _. split; [reflexivity|]. split; [|exact Hon].
    unfold before_dispatch. destruct (60000 <? _)%Z; cbn.
    + rewrite sweep_lookup, lookup_delete_eq. done.
    + apply lookup_delete_eq.
Qed.

Lemma C5_offline_removes_session_witness :
  ∃ st1, run (handler utc_day (POST "/offline" (json "a" "/"))) 7
             (snd (run (handler utc_day (POST "/pageview" (json "a" "/home"))) 5 (initial 0)))
         = (Returned (Some (ok cors_headers "User offline")), st1)
         ∧ sessions st1 = ∅.
Proof.
  destruct (C5_offline_removes_session utc_day (POST "/offline" (json "a" "/")) 7
              (snd (run (handler utc_day (POST "/pageview" (json "a" "/home"))) 5 (initial 0)))
              (mkData (Some "a") (Some "/")) eq_refl eq_refl eq_refl)
    as (st1 & E & Hs & _).
  exists st1. split; [exact E|]. rewrite Hs. vm_compute. reflexivity.
Defined.

(** ** C6: the cleanup sweep and when it runs *)

(** The route handlers never write [lastCleanup]. *)
Lemma dispatch_lastCleanup tds event hdrs now st :
  lastCleanup (snd (run (dispatch tds event hdrs) now st)) = lastCleanup st.
Proof.
  unfold dispatch.
  repeat match goal with
         | |- context [if String.eqb ?a ?b then _ else _] => destruct (String.eqb a b)
         end;
    try rewrite fmap_Some_run; try reflexivity.
  all: destruct (body event) as [| |d] eqn:E;
    first [ rewrite handlePageView_malformed by done
          | rewrite handlePageView_null by done
          | rewrite (handlePageView_value _ _ _ _ d) by done
          | rewrite handleHeartbeat_malformed by done
          | rewrite handleHeartbeat_null by done
          | rewrite (handleHeartbeat_value _ _ _ _ d) by done
          | rewrite handleOffline_malformed by done
          | rewrite handleOffline_null by done
          | rewrite (handleOffline_value _ _ _ _ d) by done ];
    reflexivity.
Qed.

(** C6. [cleanup] at [now] keeps exactly the sessions whose [lastHeartbeat]
    is not below [now - 300000], each unchanged, and records [now] as the
    time of the sweep; on a request that is not OPTIONS the route handler
    runs on the swept store when more than 60000 ms have passed since
    [lastCleanup], and on the store as it was otherwise, so that
    [lastCleanup] moves to [now] in the first case only; an OPTIONS
    request never sweeps. *)
Theorem C6_cleanup_sweep (tds : Z → string) (event : Event) (now : Z) (st : Store) :
  (∃ st', run cleanup now st = (Returned tt, st')
          ∧ (∀ k s, sessions st' !! k = Some s ↔
                    sessions st !! k = Some s ∧ ¬ (lastHeartbeat s < now - 300000)%Z)
          ∧ pageViews st' = pageViews st
          ∧ lastCleanup st' = now)
  ∧ (httpMethod event ≠ "OPTIONS" →
       run (handler tds event) now st =
         run (caught (dispatch tds event cors_headers)) now
             (if (60000 <? now - lastCleanup st)%Z then snd (run cleanup now st) else st)
       ∧ lastCleanup (snd (run (handler tds event) now st)) =
           if (60000 <? now - lastCleanup st)%Z then now else lastCleanup st)
  ∧ (httpMethod event = "OPTIONS" → snd (run (handler tds event) now st) = st).
Proof.
  split; [|split].
  - exists (swept now st). split; [apply cleanup_run|]. split; [|done].
    intros k s. cbn. rewrite sweep_lookup. change FIVE_MINUTES with 300000%Z.
    destruct (sessions st !! k) as [s0|]; [|split; [discriminate | intros [? _]; discriminate]].
    destruct (Z.ltb_spec (lastHeartbeat s0) (now - 300000)).
    + split; [discriminate | intros [[= ->] Hn]; lia].
    + split; [intros [= ->]; split; [reflexivity | lia] | intros [E _]; exact E].
  - intros H. rewrite handler_not_options by done. split; [reflexivity|].
    rewrite caught_run.
    pose proof (dispatch_lastCleanup tds event cors_headers now (before_dispatch now st)) as E.
    destruct (run (dispatch tds event cors_headers) now (before_dispatch now st))
      as [[o|e] st']; cbn [snd] in *; rewrite E; unfold before_dispatch;
      by destruct (60000 <? _)%Z.
  - intros H. by rewrite handler_options.
Qed.

Lemma C6_cleanup_sweep_witness :
  run (handler utc_day (GET "/current")) 60001 (initial 0)
  = run (caught (dispatch utc_day (GET "/current") cors_headers)) 60001
        (snd (run cleanup 60001 (initial 0)))
  ∧ snd (run (handler utc_day (mkEvent "OPTIONS" "/" Malformed)) 60001 (initial 0)) = initial 0.
Proof.
  pose proof (C6_cleanup_sweep utc_day (GET "/current") 60001 (initial 0)) as (_ & H & _).
  pose proof (C6_cleanup_sweep utc_day (mkEvent "OPTIONS" "/" Malformed) 60001 (initial 0))
    as (_ & _ & H').
  split; [apply H; discriminate | apply H'; reflexivity].
Defined.

(** ** C3: firstSeen and lastHeartbeat *)

Lemma routed_touch tds k s st t event :
  touches k event → sessions st !! k = Some s →
  ∃ s', sessions (routed tds st (t, event)) !! k = Some s'
        ∧ firstSeen s' = firstSeen s ∧ lastHeartbeat s' = t.
Proof.
  intros (Hm & Hr & d & Hb & <-) Hs. unfold routed. cbn [fst snd].
  destruct Hr as [Hr|Hr].
  - rewrite dispatch_pageview, fmap_Some_run, (handlePageView_value _ _ _ _ d) by done.
    cbn. unfold upsert. rewrite Hs, lookup_insert_eq. eauto.
  - rewrite dispatch_heartbeat, fmap_Some_run, (handleHeartbeat_value _ _ _ _ d) by done.
    cbn. unfold refresh. rewrite Hs, lookup_insert_eq. eauto.
Qed.

Lemma before_dispatch_lookup now st k s :
  sessions st !! k = Some s → (now - lastHeartbeat s ≤ FIVE_MINUTES)%Z →
  sessions (before_dispatch now st) !! k = Some s.
Proof.
  intros Hs Hlive. unfold before_dispatch. destruct (60000 <? _)%Z; [|done].
  cbn. rewrite sweep_lookup, Hs.
  destruct (Z.ltb_spec (lastHeartbeat s) (now - FIVE_MINUTES)); [lia | done].
Qed.

Lemma serve_routed tds st t event :
  httpMethod event ≠ "OPTIONS" →
  sessions (serve tds st (t, event)) = sessions (routed tds (before_dispatch t st) (t, event)).
Proof.
  intros Ho. unfold serve, routed. cbn [fst snd].
  rewrite handler_not_options, caught_run by done.
  by destruct (run (dispatch tds event cors_headers) t (before_dispatch t st)) as [[o|e] st'].
Qed.

(** The same through [exports.handler], sweep included, for a session that
    is kept alive: no sweep evicts it. *)
Lemma live_session_keeps_firstSeen tds k s reqs st :
  sessions st !! k = Some s →
  Forall (λ req, touches k (snd req)) reqs →
  paced (lastHeartbeat s) reqs →
  ∃ s', sessions (foldl (serve tds) st reqs) !! k = Some s'
        ∧ firstSeen s' = firstSeen s
        ∧ lastHeartbeat s' = last_call reqs (lastHeartbeat s).
Proof.
  revert s st. induction reqs as [|[t event] reqs IH]; intros s st Hs Hall Hpaced.
  - exists s. done.
  - apply Forall_cons in Hall as [Ht Hall]. destruct Hpaced as [Hlive Hpaced].
    cbn [foldl fst] in *.
    pose proof (before_dispatch_lookup t st k s Hs Hlive) as Hkept.
    destruct (routed_touch tds k s _ t event Ht Hkept) as (s1 & Hs1 & Hf1 & Hl1).
    rewrite <- serve_routed in Hs1
      by (destruct Ht as [Hm _]; cbn in Hm; rewrite Hm; discriminate).
    rewrite <- Hl1 in Hpaced.
    destruct (IH s1 _ Hs1 Hall Hpaced) as (s' & Hs' & Hf' & Hl').
    exists s'. split; [done|]. split; [congruence|].
    unfold last_call in *. cbn [foldl fst]. by rewrite Hl', Hl1.
Qed.

(** C3. Starting from a table that holds a session under [k], any run of
    page-view and heartbeat requests for [k] through their route handlers
    keeps the session with the [firstSeen] it had, and its [lastHeartbeat]
    is the time of the last of these requests.  The same holds for the
    requests served by [exports.handler], cleanup included, when each
    arrives within five minutes of the one before, so that no sweep evicts
    the session in between. *)
Theorem C3_firstSeen_kept_lastHeartbeat_latest (tds : Z → string) (k : Key) (s : Session)
    (reqs : list (Z * Event)) (st : Store) :
  sessions st !! k = Some s →
  Forall (λ req, touches k (snd req)) reqs →
  (∃ s', sessions (foldl (routed tds) st reqs) !! k = Some s'
         ∧ firstSeen s' = firstSeen s
         ∧ lastHeartbeat s' = last_call reqs (lastHeartbeat s))
  ∧ (paced (lastHeartbeat s) reqs →
     ∃ s', sessions (foldl (serve tds) st reqs) !! k = Some s'
           ∧ firstSeen s' = firstSeen s
           ∧ lastHeartbeat s' = last_call reqs (lastHeartbeat s)).
Proof.
  intros Hs Hall. split; [|by apply live_session_keeps_firstSeen].
  revert s st Hs. induction reqs as [|[t event] reqs IH]; intros s st Hs.
  - exists s. done.
  - apply Forall_cons in Hall as [Ht Hall]. cbn [foldl].
    destruct (routed_touch tds k s st t event Ht Hs) as (s1 & Hs1 & Hf1 & Hl1).
    destruct (IH Hall s1 _ Hs1) as (s' & Hs' & Hf' & Hl').
    exists s'. split; [done|]. split; [congruence|].
    unfold last_call in *. cbn [foldl fst]. by rewrite Hl', Hl1.
Qed.

Lemma C3_firstSeen_kept_lastHeartbeat_latest_witness :
  ∃ s', sessions (foldl (serve utc_day)
                    (snd (run (handler utc_day (POST "/pageview" (json "a" "/home"))) 5
                              (initial 0)))
                    [(9%Z, POST "/pageview" (json "a" "/next"));
                     (12%Z, POST "/heartbeat" (json "a" "/"))]) !! Some "a" = Some s'
        ∧ firstSeen s' = 5%Z ∧ lastHeartbeat s' = 12%Z.
Proof.
  apply (C3_firstSeen_kept_lastHeartbeat_latest utc_day (Some "a")
           (mkSession (Some "a") 5 5 (Some "/home"))).
  - vm_compute. reflexivity.
  - constructor; [|constructor; [|constructor]];
      (split; [reflexivity|];
       split; [first [left; reflexivity | right; reflexivity]|];
       eexists; split; reflexivity).
  - cbn. unfold FIVE_MINUTES. lia.
Defined.

(** ** C8: failing requests *)

Lemma dispatch_throws tds event hdrs now st e st' :
  run (dispatch tds event hdrs) now st = (Thrown e, st') →
  ((route event = "/pageview" ∧ body event = JsonNull
    ∧ st' = set_pageViews (push_view (spread_with_timestamp PNull now) (pageViews st)) st)
   ∨ st' = st)
  ∧ (body event = Malformed → st' = st).
Proof.
  unfold dispatch.
  repeat match goal with
         | |- context [if String.eqb ?a ?b then _ else _] =>
             destruct (String.eqb a b) eqn:?
         end;
    try (rewrite fmap_Some_run);
    try (unfold run, mret, M_ret; congruence).
  all: try (destruct (getCurrentStats_run tds hdrs now st) as (stats & -> & _); congruence).
  all: destruct (body event) as [| |d] eqn:E;
    first [ rewrite handlePageView_malformed by done
          | rewrite handlePageView_null by done
          | rewrite (handlePageView_value _ _ _ _ d) by done
          | rewrite handleHeartbeat_malformed by done
          | rewrite handleHeartbeat_null by done
          | rewrite (handleHeartbeat_value _ _ _ _ d) by done
          | rewrite handleOffline_malformed by done
          | rewrite handleOffline_null by done
          | rewrite (handleOffline_value _ _ _ _ d) by done ];
    try congruence; intros [= <- <-]; (split; [|done]).
  all: try (by right).
  left. split; [by apply String.eqb_eq | done].
Qed.

(** C8 fails on a POST [/pageview] whose body is the JSON text [null]: the
    view has been pushed when the read of [sessionId] throws, so the
    request is answered with 500 and the page-view list has grown. *)
Lemma C8_null_pageview_counterexample :
  fst (run (handler utc_day (POST "/pageview" JsonNull)) 5 (initial 0))
  = Returned (Some internal_error)
  ∧ pageViews (snd (run (handler utc_day (POST "/pageview" JsonNull)) 5 (initial 0)))
    = [ {| view_sessionId := None; view_page := None; view_timestamp := 5 |} ]
  ∧ pageViews (snd (run (handler utc_day (POST "/pageview" JsonNull)) 5 (initial 0)))
    ≠ pageViews (initial 0).
Proof. split; [reflexivity|]. split; [reflexivity | discriminate]. Qed.

(** C8, amended. When the route handler of a request throws, the response
    is status 500 with the error Internal server error, and the handler
    has left the session table and [lastCleanup] as the lazy sweep left
    them; the page-view list is unchanged as well, and so the whole store,
    unless the request is a POST [/pageview] with the body [null], where
    the view has already been appended.  A malformed body never changes
    the store. *)
Theorem C8_failure_answers_500 (tds : Z → string) (event : Event) (now : Z)
    (st : Store) (e : Error) (st' : Store) :
  httpMethod event ≠ "OPTIONS" →
  run (dispatch tds event cors_headers) now (before_dispatch now st) = (Thrown e, st') →
  run (handler tds event) now st =
    (Returned (Some {| statusCode := 500; headers := cors_headers;
                       response_body := ErrorBody "Internal server error" |}), st')
  ∧ sessions st' = sessions (before_dispatch now st)
  ∧ lastCleanup st' = lastCleanup (before_dispatch now st)
  ∧ ((route event = "/pageview" ∧ body event = JsonNull
      ∧ pageViews st' = push_view {| view_sessionId := None; view_page := None;
                                     view_timestamp := now |}
                                  (pageViews (before_dispatch now st)))
     ∨ st' = before_dispatch now st)
  ∧ (body event = Malformed → st' = before_dispatch now st).
Proof.
  intros Ho E. rewrite handler_not_options, caught_run, E by done.
  split; [reflexivity|].
  apply dispatch_throws in E as [[(Hr & Hb & ->) | ->] Hm].
  - split; [done|]. split; [done|]. split; [|done]. left. done.
  - split; [done|]. split; [done|]. split; [|done]. by right.
Qed.

Lemma C8_failure_answers_500_witness :
  run (handler utc_day (POST "/pageview" Malformed)) 5 (initial 0)
  = (Returned (Some internal_error), initial 0).
Proof.
  destruct (C8_failure_answers_500 utc_day (POST "/pageview" Malformed) 5 (initial 0)
              SyntaxError (initial 0)) as (E & _); [discriminate | reflexivity | exact E].
Defined.

(** ** C2: the bound on the page-view list *)

Lemma slice_last_length {A} (n : nat) (l : list A) :
  length (slice_last n l) = length l `min` n.
Proof. unfold slice_last. rewrite length_drop. lia. Qed.

Lemma slice_last_short {A} (n : nat) (l : list A) :
  (length l ≤ n)%nat → slice_last n l = l.
Proof. intros H. unfold slice_last. replace (length l - n) with 0 by lia. done. Qed.

Lemma slice_last_snoc {A} (n : nat) (l : list A) (x : A) :
  (0 < n)%nat → slice_last n (slice_last n l ++ [x]) = slice_last n (l ++ [x]).
Proof.
  intros Hn. unfold slice_last. rewrite !length_app, length_drop. cbn [length].
  destruct (decide (length l ≤ n)%nat) as [Hle|Hgt].
  - replace (length l - n) with 0 by lia. cbn [drop]. by rewrite Nat.sub_0_r.
  - replace (length l - (length l - n) + 1 - n) with 1 by lia.
    replace (length l + 1 - n) with (length l - n + 1) by lia.
    rewrite <- (drop_drop (l ++ [x]) 1 (length l - n)).
    rewrite (drop_app_le l [x] (length l - n)) by lia. done.
Qed.

Lemma push_view_slice (v : View) (l : list View) :
  push_view v (slice_last 1000 l) = slice_last 1000 (l ++ [v]).
Proof.
  unfold push_view. destruct (Nat.ltb_spec 1000 (length (slice_last 1000 l ++ [v]))).
  - apply slice_last_snoc. lia.
  - rewrite <- (slice_last_snoc 1000 l v) by lia. symmetry. by apply slice_last_short.
Qed.

Lemma before_dispatch_pageViews now st : pageViews (before_dispatch now st) = pageViews st.
Proof. unfold before_dispatch. by destruct (60000 <? _)%Z. Qed.

Lemma dispatch_pageViews tds event hdrs now st :
  pageViews (snd (run (dispatch tds event hdrs) now st))
  = match submitted (now, event) with
    | Some v => push_view v (pageViews st)
    | None => pageViews st
    end.
Proof.
  unfold dispatch, submitted. cbn [fst snd].
  destruct (String.eqb (httpMethod event) "POST") eqn:Hm; cbn [andb].
  - apply String.eqb_eq in Hm. rewrite Hm. cbn [String.eqb Ascii.eqb Bool.eqb].
    repeat match goal with
           | |- context [if String.eqb (route event) ?b then _ else _] =>
               destruct (String.eqb (route event) b) eqn:?
           end;
      try rewrite fmap_Some_run; try reflexivity.
    all: destruct (body event) as [| |d] eqn:E;
      first [ rewrite handlePageView_malformed by done
            | rewrite handlePageView_null by done
            | rewrite (handlePageView_value _ _ _ _ d) by done
            | rewrite handleHeartbeat_malformed by done
            | rewrite handleHeartbeat_null by done
            | rewrite (handleHeartbeat_value _ _ _ _ d) by done
            | rewrite handleOffline_malformed by done
            | rewrite handleOffline_null by done
            | rewrite (handleOffline_value _ _ _ _ d) by done ];
      reflexivity.
  - repeat match goal with
           | |- context [if String.eqb (route event) ?b then _ else _] =>
               destruct (String.eqb (route event) b) eqn:?
           end;
      try (destruct (String.eqb (httpMethod event) "GET")); try rewrite fmap_Some_run;
      try reflexivity.
Qed.

Lemma serve_pageViews tds st req :
  pageViews (serve tds st req)
  = match submitted req with
    | Some v => push_view v (pageViews st)
    | None => pageViews st
    end.
Proof.
  destruct req as [now event]. unfold serve. cbn [fst snd].
  destruct (decide (httpMethod event = "OPTIONS")) as [H|H].
  - rewrite handler_options by done. unfold submitted. cbn [fst snd]. rewrite H. reflexivity.
  - rewrite handler_not_options, caught_run by done.
    rewrite <- (before_dispatch_pageViews now st), <- dispatch_pageViews with (tds := tds)
      (hdrs := cors_headers).
    by destruct (run (dispatch tds event cors_headers) now (before_dispatch now st)) as [[o|e] st'].
Qed.

Lemma serve_all_pageViews tds t0 reqs :
  pageViews (foldl (serve tds) (initial t0) reqs) = slice_last 1000 (submitted_views reqs).
Proof.
  induction reqs as [|req reqs IH] using rev_ind; [reflexivity|].
  rewrite foldl_app. cbn [foldl]. rewrite serve_pageViews, IH.
  unfold submitted_views. rewrite omap_app. cbn [omap list_omap].
  destruct (submitted req) as [v|].
  - apply push_view_slice.
  - by rewrite app_nil_r.
Qed.

(** C2. Serve any list of requests from the freshly loaded module.  The
    page-view list then holds the last 1000 of the submitted views, in
    arrival order, and its length is the smaller of their number and
    1000. *)
Theorem C2_pageViews_last_1000 (tds : Z → string) (t0 : Z) (reqs : list (Z * Event)) :
  pageViews (foldl (serve tds) (initial t0) reqs)
  = drop (length (submitted_views reqs) - 1000) (submitted_views reqs)
  ∧ length (pageViews (foldl (serve tds) (initial t0) reqs))
    = length (submitted_views reqs) `min` 1000.
Proof.
  rewrite serve_all_pageViews. split; [reflexivity | apply slice_last_length].
Qed.

(** ** C7: popular pages *)

Lemma sort_insert_Permutation {A} (after : A → A → bool) x l :
  sort_insert after x l ≡ₚ x :: l.
Proof.
  induction l as [|y l IH]; cbn; [done|].
  destruct (after x y); [|done]. rewrite IH. apply Permutation_swap.
Qed.

Lemma stable_sort_Permutation {A} (after : A → A → bool) l : stable_sort after l ≡ₚ l.
Proof.
  induction l as [|x l IH]; cbn; [done|].
  unfold stable_sort in IH. by rewrite sort_insert_Permutation, IH.
Qed.

Lemma filter_split_Permutation {A} (p : A → bool) l :
  List.filter p l ++ List.filter (λ x, negb (p x)) l ≡ₚ l.
Proof.
  induction l as [|x l IH]; cbn; [done|].
  destruct (p x); cbn.
  - by rewrite IH.
  - rewrite <- Permutation_middle. by rewrite IH.
Qed.

Lemma Object_entries_Permutation o : Object_entries o ≡ₚ o.
Proof.
  unfold Object_entries. rewrite stable_sort_Permutation.
  apply (filter_split_Permutation (λ e, bool_decide (is_Some (array_index (fst e))))).
Qed.

Section Insertion.
Context {A : Type} (after : A → A → bool) (R : A → A → Prop).
Hypothesis after_true : ∀ x y, after x y = true → R y x.
Hypothesis after_false : ∀ x y, after x y = false → R x y.

Lemma HdRel_sort_insert a x l :
  R a x → HdRel R a l → HdRel R a (sort_insert after x l).
Proof.
  intros Hax Hl. destruct l as [|y l]; cbn; [by constructor|].
  destruct (after x y); constructor; [by inversion Hl | done].
Qed.

Lemma Sorted_sort_insert x l : Sorted R l → Sorted R (sort_insert after x l).
Proof.
  induction 1 as [|y l Hs IH Hhd]; cbn; [by repeat constructor|].
  destruct (after x y) eqn:E.
  - constructor; [done|]. apply HdRel_sort_insert; [by apply after_true | done].
  - constructor; [by constructor|]. constructor. by apply after_false.
Qed.

Lemma Sorted_stable_sort l : Sorted R (stable_sort after l).
Proof.
  induction l as [|x l IH]; cbn; [constructor|]. by apply Sorted_sort_insert.
Qed.
End Insertion.

Lemma Sorted_take_prefix {A} (R : A → A → Prop) n l : Sorted R l → Sorted R (take n l).
Proof.
  intros Hs. revert n. induction Hs as [|x l Hs IH Hhd]; intros [|n]; cbn; try constructor.
  - apply IH.
  - destruct Hhd; destruct n; cbn; by constructor.
Qed.

(** Whatever the counts are, neighbours in the sorted array are in order
    as far as the comparator can tell. *)
Lemma Array_sort_by_count l : Sorted count_desc (Array_sort by_count_desc l).
Proof.
  apply Sorted_stable_sort; intros x y; unfold goes_after, by_count_desc, count_desc;
    destruct (to_number (snd x)), (to_number (snd y)); try done.
  - intros H%Z.ltb_lt. lia.
  - intros H%Z.ltb_ge. lia.
Qed.

Lemma assoc_own_set (o : JsObject) k v k' :
  assoc k' (own_set o k v) = if String.eqb k' k then Some v else assoc k' o.
Proof.
  induction o as [|[k0 v0] o IH]; cbn.
  - by destruct (String.eqb k' k).
  - destruct (String.eqb k k0) eqn:E; cbn.
    + apply String.eqb_eq in E as ->. by destruct (String.eqb k' k0).
    + destruct (String.eqb k' k0) eqn:E'; [|done].
      apply String.eqb_eq in E' as ->. rewrite String.eqb_sym in E. by rewrite E.
Qed.

Lemma own_set_keys (o : JsObject) k v :
  NoDup (o.*1) → NoDup ((own_set o k v).*1).
Proof.
  induction o as [|[k0 v0] o IH]; cbn; [repeat constructor; set_solver|].
  intros [Hk0 Hnd]%NoDup_cons.
  destruct (String.eqb k k0) eqn:E; cbn; [by constructor|].
  constructor; [|by apply IH].
  intros [[k1 v1] [Heq Hin]]%list_elem_of_fmap. cbn in Heq. subst k1.
  assert (assoc k0 (own_set o k v) = assoc k0 o) as Ha.
  { rewrite assoc_own_set. rewrite String.eqb_sym in E. by rewrite E. }
  assert (∀ o' : JsObject, (k0, v1) ∈ o' → is_Some (assoc k0 o')) as Hsome.
  { clear. induction o' as [|[k2 v2] o' IH]; [by intros ?%not_elem_of_nil|].
    intros Hin. cbn. destruct (String.eqb k0 k2) eqn:E; [eauto|].
    apply elem_of_cons in Hin as [[= -> ->]|Hin]; [by rewrite String.eqb_refl in E | auto]. }
  assert (∀ o' : JsObject, is_Some (assoc k0 o') → k0 ∈ o'.*1) as Hkey.
  { clear. induction o' as [|[k2 v2] o' IH]; cbn; [by intros [? [=]]|].
    destruct (String.eqb k0 k2) eqn:E; [apply String.eqb_eq in E as ->; set_solver|].
    intros H. apply elem_of_cons. right. auto. }
  apply Hk0, Hkey. rewrite <- Ha. by apply Hsome.
Qed.

Lemma assoc_elem_of (o : JsObject) k v :
  NoDup (o.*1) → (k, v) ∈ o → assoc k o = Some v.
Proof.
  induction o as [|[k0 v0] o IH]; [by intros _ ?%not_elem_of_nil|].
  cbn. intros [Hk0 Hnd]%NoDup_cons [[= -> ->]|Hin]%elem_of_cons.
  - by rewrite String.eqb_refl.
  - destruct (String.eqb k k0) eqn:E; [|auto].
    apply String.eqb_eq in E as ->. destruct Hk0.
    apply list_elem_of_fmap. by exists (k0, v).
Qed.

Lemma count_view_snoc views v :
  pageStats_of (views ++ [v]) = count_view (pageStats_of views) v.
Proof. unfold pageStats_of. by rewrite foldl_app. Qed.

Lemma occurrences_snoc k views v :
  occurrences k (views ++ [v])
  = (occurrences k views + if String.eqb (property_key (view_page v)) k then 1 else 0)%nat.
Proof.
  unfold occurrences. rewrite List.filter_app, length_app. cbn.
  by destruct (String.eqb (property_key (view_page v)) k).
Qed.

(** The own keys of [pageStats] are distinct. *)
Lemma pageStats_keys views : NoDup ((pageStats_of views).*1).
Proof.
  induction views as [|v views IH] using rev_ind; [constructor|].
  rewrite count_view_snoc. unfold count_view, obj_set.
  destruct (String.eqb _ "__proto__"); [done | by apply own_set_keys].
Qed.

(** With ordinary page keys [pageStats] holds, for each key that occurs,
    the number of its occurrences. *)
Lemma pageStats_plain views k :
  plain_pages views →
  assoc k (pageStats_of views)
  = match occurrences k views with
    | O => None
    | S n => Some (VNum (Z.of_nat (S n)))
    end.
Proof.
  induction views as [|v views IH] using rev_ind; [done|].
  intros [Hplain Hv]%Forall_app. apply Forall_inv in Hv.
  specialize (IH Hplain). rewrite count_view_snoc, occurrences_snoc.
  unfold count_view. set (kv := property_key (view_page v)) in *.
  unfold inherited in Hv. apply orb_false_iff in Hv as [Hproto Hfun].
  unfold obj_set. rewrite Hproto, assoc_own_set. rewrite (String.eqb_sym k kv).
  destruct (String.eqb kv k) eqn:E.
  - apply String.eqb_eq in E as <-. unfold obj_get. rewrite IH, Hproto.
    destruct (occurrences kv views) as [|n]; cbn [Nat.add].
    + destruct (assoc kv Object_prototype_functions) eqn:Ef.
      * apply bool_decide_eq_false in Hfun. destruct Hfun. eauto.
      * reflexivity.
    + unfold or_zero, truthy, plus_one.
      replace (Z.of_nat (S n) =? 0)%Z with false by (symmetry; apply Z.eqb_neq; lia).
      cbn [negb]. do 2 f_equal. lia.
  - rewrite Nat.add_0_r. exact IH.
Qed.

Lemma popular_length views : (length (popular views) ≤ 10)%nat.
Proof. unfold popular. rewrite length_take. lia. Qed.

Lemma popular_entries views : popular views ⊆ pageStats_of views.
Proof.
  unfold popular. etransitivity; [apply subseteq_take|].
  intros e He. unfold Array_sort in He.
  rewrite stable_sort_Permutation, Object_entries_Permutation in He. done.
Qed.

Lemma popular_keys views : NoDup ((popular views).*1).
Proof.
  unfold popular. rewrite fmap_take.
  eapply sublist_NoDup; [|apply sublist_take].
  unfold Array_sort. rewrite stable_sort_Permutation, Object_entries_Permutation.
  apply pageStats_keys.
Qed.

Lemma Sorted_numeric l :
  Sorted count_desc l → Forall (λ e, ∃ n, snd e = VNum n) l →
  Sorted (λ x y, count_of y ≤ count_of x)%Z l.
Proof.
  induction 1 as [|x l Hs IH Hhd]; intros Hnum; [constructor|].
  apply Forall_cons in Hnum as [[a Ha] Hnum]. constructor; [auto|].
  destruct Hhd as [|y l Hxy]; constructor.
  apply Forall_cons in Hnum as [[b Hb] _].
  unfold count_desc, count_of in *. by rewrite Ha, Hb in *.
Qed.

(** For ordinary page keys the reported list is what C7 describes: one
    entry for each listed page with the number of its views, at most ten
    entries, in descending order of count. *)
Lemma popular_plain views :
  plain_pages views →
  (∀ p c, (p, c) ∈ popular views →
          c = VNum (Z.of_nat (occurrences p views)) ∧ (0 < occurrences p views)%nat)
  ∧ NoDup ((popular views).*1)
  ∧ (length (popular views) ≤ 10)%nat
  ∧ Sorted (λ x y, count_of y ≤ count_of x)%Z (popular views).
Proof.
  intros Hplain.
  assert (∀ p c, (p, c) ∈ popular views →
            c = VNum (Z.of_nat (occurrences p views)) ∧ (0 < occurrences p views)%nat)
    as Hcount.
  { intros p c Hin%popular_entries.
    apply assoc_elem_of in Hin; [|apply pageStats_keys].
    rewrite pageStats_plain in Hin by done.
    destruct (occurrences p views); [done|]. injection Hin as <-. split; [done | lia]. }
  split; [exact Hcount|]. split; [apply popular_keys|]. split; [apply popular_length|].
  apply Sorted_numeric.
  - apply Sorted_take_prefix, Array_sort_by_count.
  - apply Forall_forall. intros [p c] Hin. destruct (Hcount p c Hin) as [-> _]. eauto.
Qed.

(** Every page viewed today has its group when there are at most ten. *)
Lemma popular_complete views k :
  plain_pages views → (0 < occurrences k views)%nat →
  (length (pageStats_of views) ≤ 10)%nat →
  (k, VNum (Z.of_nat (occurrences k views))) ∈ popular views.
Proof.
  intros Hplain Hocc Hlen. unfold popular.
  rewrite take_ge.
  2:{ unfold Array_sort. by rewrite stable_sort_Permutation, Object_entries_Permutation. }
  unfold Array_sort. rewrite stable_sort_Permutation, Object_entries_Permutation.
  pose proof (pageStats_plain views k Hplain) as Ha.
  destruct (occurrences k views) as [|n]; [lia|].
  clear -Ha. induction (pageStats_of views) as [|[k0 v0] o IH]; [done|].
  cbn in Ha. destruct (String.eqb k k0) eqn:E.
  - apply String.eqb_eq in E as ->. injection Ha as ->. set_solver.
  - apply elem_of_cons. right. auto.
Qed.

Lemma stored_plus_one v :
  stored v ∨ v = VUndefined ∨ v = VObjectPrototype ∨ (∃ f, v = VFunction f) →
  stored (plus_one (or_zero v)).
Proof.
  intros [Hv|[->|[->|[f ->]]]]; cbn; try done.
  - destruct v as [|n|s| | |]; try done.
    + unfold or_zero, truthy. by destruct (negb _).
    + destruct s as [|c s]; [done|]. exact Hv.
  - by right.
  - by left.
Qed.

Lemma Forall_own_set (P : string * JsVal → Prop) (o : JsObject) k v :
  Forall P o → P (k, v) → Forall P (own_set o k v).
Proof.
  intros Ho Hv. induction Ho as [|[k0 v0] o H0 Ho IH]; cbn; [by repeat constructor|].
  destruct (String.eqb k k0) eqn:E.
  - apply String.eqb_eq in E as ->. by constructor.
  - by constructor.
Qed.

Lemma assoc_Forall (P : string * JsVal → Prop) (o : JsObject) k v :
  Forall P o → assoc k o = Some v → P (k, v).
Proof.
  induction 1 as [|[k0 v0] o H0 Ho IH]; cbn; [done|].
  destruct (String.eqb k k0) eqn:E; [|done].
  apply String.eqb_eq in E as ->. by intros [= ->].
Qed.

(** Every value of [pageStats] is a number or a text that [ToNumber] maps
    to NaN, as [to_number] has it. *)
Lemma stored_text_not_numeric views : Forall (λ e, stored (snd e)) (pageStats_of views).
Proof.
  induction views as [|v views IH] using rev_ind; [constructor|].
  rewrite count_view_snoc. unfold count_view, obj_set.
  destruct (String.eqb _ "__proto__"); [done|].
  apply Forall_own_set; [done|]. cbn [snd]. apply stored_plus_one.
  unfold obj_get. destruct (assoc _ (pageStats_of views)) as [v0|] eqn:E.
  - left. exact (assoc_Forall (λ e, stored (snd e)) _ _ _ IH E).
  - right. destruct (String.eqb _ "__proto__"); [auto|].
    destruct (assoc _ Object_prototype_functions); eauto.
Qed.

(** The scenario of the specification: one page view, then the summary. *)
Example pageview_then_current :
  ∃ st, run (handler utc_day (GET "/current")) 7
            (snd (run (handler utc_day (POST "/pageview" (json "a" "/home"))) 5 (initial 0)))
        = (Returned (Some {| statusCode := 200; headers := cors_headers;
                             response_body :=
                               StatsBody {| onlineUsers := 1; todayViews := 1;
                                            totalViews := 1;
                                            popularPages := [("/home", VNum 1)];
                                            timestamp := 7 |} |}), st).
Proof. eexists. vm_compute. reflexivity. Qed.

(** What a GET [/current] request returns. *)
Lemma handler_current tds event now st :
  httpMethod event = "GET" → route event = "/current" →
  ∃ stats,
    run (handler tds event) now st =
      (Returned (Some {| statusCode := 200; headers := cors_headers;
                         response_body := StatsBody stats |}), before_dispatch now st)
    ∧ onlineUsers stats = size (sessions (before_dispatch now st))
    ∧ totalViews stats = length (pageViews st)
    ∧ todayViews stats = length (today_views tds now st)
    ∧ popularPages stats = popular (today_views tds now st).
Proof.
  intros Hm Hr. rewrite handler_not_options, caught_run by (rewrite Hm; discriminate).
  rewrite dispatch_current, fmap_Some_run by done.
  destruct (getCurrentStats_run tds cors_headers now (before_dispatch now st))
    as (stats & -> & Hon & Htot & Htoday & Hpop & _).
  exists stats. rewrite before_dispatch_pageViews in *. done.
Qed.

(** C7 holds for a GET [/current] when the pages viewed today are ordinary
    keys. *)
Lemma current_popularPages_plain tds event now st :
  httpMethod event = "GET" → route event = "/current" →
  plain_pages (today_views tds now st) →
  ∃ stats st',
    run (handler tds event) now st =
      (Returned (Some {| statusCode := 200; headers := cors_headers;
                         response_body := StatsBody stats |}), st')
    ∧ (∀ p c, (p, c) ∈ popularPages stats →
              c = VNum (Z.of_nat (occurrences p (today_views tds now st)))
              ∧ (0 < occurrences p (today_views tds now st))%nat)
    ∧ NoDup ((popularPages stats).*1)
    ∧ (length (popularPages stats) ≤ 10)%nat
    ∧ Sorted (λ x y, count_of y ≤ count_of x)%Z (popularPages stats).
Proof.
  intros Hm Hr Hplain.
  destruct (handler_current tds event now st Hm Hr) as (stats & E & _ & _ & _ & Hpop).
  exists stats, (before_dispatch now st). split; [exact E|].
  rewrite Hpop. by apply popular_plain.
Qed.

(** C7, as the code has it. Two page views of today with the pages
    [__proto__] and [constructor], then GET [/current]: both are counted in
    [todayViews], but [popularPages] has no entry for [__proto__] (the
    assignment to it is ignored), and the entry for [constructor] holds a
    text built from the inherited function, not a count. *)
Theorem C7_inherited_keys_miscounted (now : Z) :
  let st := foldl (serve utc_day) (initial now)
              [ (now, POST "/pageview" (json "a" "__proto__"));
                (now, POST "/pageview" (json "a" "constructor")) ] in
  ∃ stats, fst (run (handler utc_day (GET "/current")) now st)
           = Returned (Some {| statusCode := 200; headers := cors_headers;
                               response_body := StatsBody stats |})
           ∧ todayViews stats = 2%nat
           ∧ popularPages stats
             = [ ("constructor", VStr "function Object() { [native code] }1") ].
Proof.
  cbn zeta.
  destruct (handler_current utc_day (GET "/current") now
              (foldl (serve utc_day) (initial now)
                 [ (now, POST "/pageview" (json "a" "__proto__"));
                   (now, POST "/pageview" (json "a" "constructor")) ]))
    as (stats & -> & _ & _ & Htoday & Hpop); [reflexivity | reflexivity |].
  exists stats. split; [reflexivity|].
  assert (today_views utc_day now
            (foldl (serve utc_day) (initial now)
               [ (now, POST "/pageview" (json "a" "__proto__"));
                 (now, POST "/pageview" (json "a" "constructor")) ])
          = [ mkView (Some "a") (Some "__proto__") now;
              mkView (Some "a") (Some "constructor") now ]) as Hviews.
  { unfold today_views.
    replace (pageViews _) with [ mkView (Some "a") (Some "__proto__") now;
                                 mkView (Some "a") (Some "constructor") now ]
      by (cbn [foldl]; rewrite !serve_pageViews; reflexivity).
    unfold is_today. cbn [List.filter view_timestamp].
    by rewrite String.eqb_refl. }
  rewrite Hviews in Htoday, Hpop. split; [exact Htoday | exact Hpop].
Qed.

(** * Further properties of the handler *)

(** ** The route of a path *)

Lemma prefix_app (p r : string) : String.prefix p (p +:+ r) = true.
Proof.
  induction p as [|c p IH]; simpl; [by destruct r|].
  destruct (ascii_dec c c); [exact IH | congruence].
Qed.

Lemma string_length_app (p r : string) :
  String.length (p +:+ r) = (String.length p + String.length r)%nat.
Proof. induction p as [|c p IH]; simpl; [done | by rewrite IH]. Qed.

Lemma prefix_split (p s : string) : String.prefix p s = true → ∃ r, s = p +:+ r.
Proof.
  revert s. induction p as [|c p IH]; intros s H; [by exists s|].
  destruct s as [|c' s]; cbn in H; [discriminate|].
  destruct (ascii_dec c c') as [->|]; [|discriminate].
  destruct (IH s H) as [r ->]. by exists r.
Qed.

Lemma substring_all (s : string) : String.substring 0 (String.length s) s = s.
Proof. induction s as [|c s IH]; cbn; [done | by rewrite IH]. Qed.

Lemma string_drop_app (p r : string) : string_drop (String.length p) (p +:+ r) = r.
Proof.
  unfold string_drop. induction p as [|c p IH]; cbn.
  - rewrite Nat.sub_0_r. apply substring_all.
  - exact IH.
Qed.

Lemma replace_first_head (pat rep r : string) :
  replace_first pat rep (pat +:+ r) = rep +:+ r.
Proof.
  destruct (pat +:+ r) eqn:E; cbn [replace_first]; rewrite <- E, prefix_app;
    by rewrite string_drop_app.
Qed.

Lemma replace_first_absent (pat rep s : string) :
  (∀ s1 s2, s ≠ s1 +:+ pat +:+ s2) → replace_first pat rep s = s.
Proof.
  induction s as [|c s IH]; intros Habs.
  - cbn [replace_first]. destruct (String.prefix pat "") eqn:E; [|done].
    apply prefix_split in E as [r E]. destruct (Habs "" r). exact E.
  - cbn [replace_first]. destruct (String.prefix pat (String c s)) eqn:E.
    + apply prefix_split in E as [r E]. destruct (Habs "" r). exact E.
    + f_equal. apply IH. intros s1 s2 ->. by destruct (Habs (String c s1) s2).
Qed.

(** X1. The route of a request is its path without the mount prefix: a
    path made of the prefix and a rest has the rest as its route, and a
    path in which the prefix does not occur is its own route. *)
Theorem X1_route_strips_mount (event : Event) :
  (∀ rest, path event = MOUNT +:+ rest → route event = rest)
  ∧ ((∀ s1 s2, path event ≠ s1 +:+ MOUNT +:+ s2) → route event = path event).
Proof.
  unfold route. split.
  - intros rest ->. apply (replace_first_head MOUNT "" rest).
  - intros Habs. by apply (replace_first_absent MOUNT "").
Qed.

Lemma X1_route_strips_mount_witness :
  route (mkEvent "GET" "/.netlify/functions/stats/current?x=1" JsonNull) = "/current?x=1"
  ∧ route (mkEvent "GET" "/current" JsonNull) = "/current".
Proof.
  split.
  - apply (proj1 (X1_route_strips_mount
                    (mkEvent "GET" "/.netlify/functions/stats/current?x=1" JsonNull))).
    reflexivity.
  - apply (proj2 (X1_route_strips_mount (mkEvent "GET" "/current" JsonNull))).
    intros s1 s2 H. apply (f_equal String.length) in H.
    rewrite !string_length_app in H. cbn in H. lia.
Defined.

(** ** What a request does to the session table *)

Lemma dispatch_sessions tds event hdrs now st :
  sessions (snd (run (dispatch tds event hdrs) now st))
  = session_effect event now (sessions st).
Proof.
  unfold dispatch, session_effect.
  destruct (String.eqb (httpMethod event) "POST") eqn:Hm.
  - apply String.eqb_eq in Hm. rewrite Hm. cbn [String.eqb Ascii.eqb Bool.eqb].
    repeat match goal with
           | |- context [if String.eqb (route event) ?b then _ else _] =>
               destruct (String.eqb (route event) b) eqn:?
           end;
      try rewrite fmap_Some_run; try (by destruct (body event)).
    all: destruct (body event) as [| |d] eqn:E;
      first [ rewrite handlePageView_malformed by done
            | rewrite handlePageView_null by done
            | rewrite (handlePageView_value _ _ _ _ d) by done
            | rewrite handleHeartbeat_malformed by done
            | rewrite handleHeartbeat_null by done
            | rewrite (handleHeartbeat_value _ _ _ _ d) by done
            | rewrite handleOffline_malformed by done
            | rewrite handleOffline_null by done
            | rewrite (handleOffline_value _ _ _ _ d) by done ];
      reflexivity.
  - repeat match goal with
           | |- context [if String.eqb (route event) ?b then _ else _] =>
               destruct (String.eqb (route event) b) eqn:?
           end;
      try (destruct (String.eqb (httpMethod event) "GET")); try rewrite fmap_Some_run;
      try reflexivity.
Qed.

Lemma serve_sessions tds st now event :
  sessions (serve tds st (now, event))
  = if String.eqb (httpMethod event) "OPTIONS" then sessions st
    else session_effect event now (sessions (before_dispatch now st)).
Proof.
  unfold serve. cbn [fst snd].
  destruct (String.eqb (httpMethod event) "OPTIONS") eqn:Ho.
  - apply String.eqb_eq in Ho. by rewrite handler_options.
  - apply String.eqb_neq in Ho. rewrite handler_not_options, caught_run by done.
    rewrite <- dispatch_sessions with (tds := tds) (hdrs := cors_headers).
    by destruct (run (dispatch tds event cors_headers) now (before_dispatch now st))
      as [[o|e] st'].
Qed.

Lemma serve_lastCleanup tds st now event :
  lastCleanup (serve tds st (now, event))
  = if String.eqb (httpMethod event) "OPTIONS" then lastCleanup st
    else lastCleanup (before_dispatch now st).
Proof.
  unfold serve. cbn [fst snd].
  destruct (String.eqb (httpMethod event) "OPTIONS") eqn:Ho.
  - apply String.eqb_eq in Ho. by rewrite handler_options.
  - apply String.eqb_neq in Ho. rewrite handler_not_options, caught_run by done.
    pose proof (dispatch_lastCleanup tds event cors_headers now (before_dispatch now st)) as E.
    by destruct (run (dispatch tds event cors_headers) now (before_dispatch now st))
      as [[o|e] st'].
Qed.

Lemma before_dispatch_subset now st k s :
  sessions (before_dispatch now st) !! k = Some s → sessions st !! k = Some s.
Proof.
  unfold before_dispatch. destruct (60000 <? _)%Z; [|done].
  cbn. rewrite sweep_lookup. destruct (sessions st !! k) as [s0|]; [|done].
  by destruct (lastHeartbeat s0 <? _)%Z.
Qed.

(** X2. A page view writes the session of its [sessionId]: a new one, first
    seen now, when the table has none, else the old one with its
    [firstSeen]; in both cases with [lastHeartbeat] now and the submitted
    page as [currentPage].  No other session is touched, and the table
    grows by one exactly when the session is new. *)
Theorem X2_pageview_upserts_session (event : Event) (hdrs : list (string * string))
    (now : Z) (st : Store) (d : Data) :
  body event = JsonValue d →
  let st' := snd (run (handlePageView event hdrs) now st) in
  sessions st' !! data_sessionId d
  = Some {| sessionId := data_sessionId d;
            firstSeen := match sessions st !! data_sessionId d with
                         | Some old => firstSeen old
                         | None => now
                         end;
            lastHeartbeat := now;
            currentPage := data_page d |}
  ∧ (∀ k, k ≠ data_sessionId d → sessions st' !! k = sessions st !! k)
  ∧ size (sessions st') = match sessions st !! data_sessionId d with
                          | Some _ => size (sessions st)
                          | None => S (size (sessions st))
                          end
  ∧ lastCleanup st' = lastCleanup st.
Proof.
  intros Hb. rewrite (handlePageView_value _ _ _ _ d) by done. cbn [snd sessions lastCleanup].
  unfold upsert. split; [apply lookup_insert_eq|]. split.
  - intros k Hk. by rewrite lookup_insert_ne.
  - split; [|done]. rewrite map_size_insert. by destruct (sessions st !! data_sessionId d).
Qed.

Lemma X2_pageview_upserts_session_witness :
  sessions (snd (run (handlePageView (POST "/pageview" (json "a" "/home")) cors_headers)
                     5 (initial 0))) !! Some "a"
  = Some (mkSession (Some "a") 5 5 (Some "/home")).
Proof.
  exact (proj1 (X2_pageview_upserts_session (POST "/pageview" (json "a" "/home"))
                  cors_headers 5 (initial 0) (mkData (Some "a") (Some "/home")) eq_refl)).
Defined.

(** ** Invariants of the store *)

Lemma serve_keyed tds st req :
  map_Forall (λ k s, sessionId s = k) (sessions st) →
  map_Forall (λ k s, sessionId s = k) (sessions (serve tds st req)).
Proof.
  intros Hinv. destruct req as [now event]. rewrite serve_sessions.
  destruct (String.eqb (httpMethod event) "OPTIONS"); [done|].
  assert (map_Forall (λ k s, sessionId s = k) (sessions (before_dispatch now st))) as Hgate.
  { intros k s Hs. by apply Hinv, (before_dispatch_subset now). }
  unfold session_effect. destruct (String.eqb (httpMethod event) "POST"); [|done].
  destruct (body event) as [| |d]; try done.
  repeat match goal with
         | |- context [if String.eqb (route event) ?b then _ else _] =>
             destruct (String.eqb (route event) b)
         end; try done.
  - unfold upsert. by apply map_Forall_insert_2.
  - unfold refresh. destruct (sessions (before_dispatch now st) !! data_sessionId d)
      as [s|] eqn:E; [|done].
    apply map_Forall_insert_2; [|done]. cbn. by apply Hgate.
  - by apply map_Forall_delete.
Qed.

(** X3. Whatever requests the handler has served since the module was
    loaded, every session of the table is stored under its own
    [sessionId]. *)
Theorem X3_sessions_keyed_by_sessionId (tds : Z → string) (t0 : Z)
    (reqs : list (Z * Event)) :
  map_Forall (λ k s, sessionId s = k) (sessions (foldl (serve tds) (initial t0) reqs)).
Proof.
  induction reqs as [|req reqs IH] using rev_ind.
  - apply map_Forall_empty.
  - rewrite foldl_app. cbn [foldl]. by apply serve_keyed.
Qed.

Lemma submitted_timestamp now event v :
  submitted (now, event) = Some v → view_timestamp v = now.
Proof.
  unfold submitted. cbn [fst snd]. destruct (_ && _); [|done].
  destruct (body event); [done| |]; by intros [= <-].
Qed.

Lemma push_view_timely t now v l :
  (t ≤ now)%Z → view_timestamp v = now →
  Forall (λ v, (view_timestamp v ≤ t)%Z) l →
  StronglySorted (λ a b, (view_timestamp a ≤ view_timestamp b)%Z) l →
  Forall (λ v, (view_timestamp v ≤ now)%Z) (push_view v l)
  ∧ StronglySorted (λ a b, (view_timestamp a ≤ view_timestamp b)%Z) (push_view v l).
Proof.
  intros Ht Hv Hall Hsorted.
  assert (Forall (λ v, (view_timestamp v ≤ now)%Z) (l ++ [v])) as Hall'.
  { apply Forall_app. split; [|constructor; [lia | constructor]].
    eapply Forall_impl; [exact Hall|]. cbn. intros; lia. }
  assert (StronglySorted (λ a b, (view_timestamp a ≤ view_timestamp b)%Z) (l ++ [v]))
    as Hsorted'.
  { apply StronglySorted_app_2; [|done|repeat constructor].
    intros a b Ha ->%list_elem_of_singleton.
    rewrite Forall_forall in Hall. specialize (Hall a Ha). cbn in Hall. lia. }
  unfold push_view, slice_last. destruct (1000 <? _)%nat; [|done].
  split; [by apply Forall_drop|].
  rewrite <- (take_drop (length (l ++ [v]) - 1000) (l ++ [v])) in Hsorted'.
  by apply StronglySorted_app_1_r in Hsorted'.
Qed.

Lemma serve_timely tds t now event st :
  (t ≤ now)%Z → timely t st → timely now (serve tds st (now, event)).
Proof.
  intros Ht (Hsess & Hclean & Hall & Hsorted). split; [|split].
  - rewrite serve_sessions.
    assert (∀ m : gmap Key Session,
              (∀ k s, m !! k = Some s → sessions st !! k = Some s) →
              map_Forall (λ _ s, (firstSeen s ≤ lastHeartbeat s ∧ lastHeartbeat s ≤ now)%Z) m)
      as Hsub.
    { intros m Hm k s Hs. apply Hm, Hsess in Hs. cbn in Hs. lia. }
    destruct (String.eqb (httpMethod event) "OPTIONS"); [by apply Hsub|].
    pose proof (Hsub _ (before_dispatch_subset now st)) as Hgate.
    unfold session_effect. destruct (String.eqb (httpMethod event) "POST"); [|done].
    destruct (body event) as [| |d]; try done.
    repeat match goal with
           | |- context [if String.eqb (route event) ?b then _ else _] =>
               destruct (String.eqb (route event) b)
           end; try done.
    + unfold upsert. apply map_Forall_insert_2; [|done]. cbn.
      destruct (sessions (before_dispatch now st) !! data_sessionId d) as [old|] eqn:E;
        [|lia].
      apply Hgate in E. cbn in E. lia.
    + unfold refresh. destruct (sessions (before_dispatch now st) !! data_sessionId d)
        as [s|] eqn:E; [|done].
      apply map_Forall_insert_2; [|done]. cbn. apply Hgate in E. cbn in E. lia.
    + by apply map_Forall_delete.
  - rewrite serve_lastCleanup. destruct (String.eqb (httpMethod event) "OPTIONS"); [lia|].
    unfold before_dispatch. destruct (60000 <? _)%Z; cbn; lia.
  - rewrite serve_pageViews. destruct (submitted (now, event)) as [v|] eqn:E.
    + apply submitted_timestamp in E. by apply (push_view_timely t).
    + split; [|done]. eapply Forall_impl; [exact Hall|]. cbn. intros; lia.
Qed.

Lemma serve_all_timely tds reqs t st :
  nondecreasing t reqs → timely t st →
  timely (last_call reqs t) (foldl (serve tds) st reqs).
Proof.
  revert t st. induction reqs as [|[now event] reqs IH]; intros t st Hmono Hinv; [done|].
  destruct Hmono as [Ht Hmono]. cbn [fst] in *. unfold last_call. cbn [foldl fst].
  apply (IH now); [done|]. by apply (serve_timely tds t).
Qed.

Lemma initial_timely t0 : timely t0 (initial t0).
Proof.
  split; [apply map_Forall_empty|]. split; [cbn; lia|]. split; constructor.
Qed.

(** X4. When the requests arrive at times that never go back, every
    session has its [firstSeen] no later than its [lastHeartbeat], and no
    heartbeat and no sweep is later than the last request. *)
Theorem X4_session_times_in_order (tds : Z → string) (t0 : Z) (reqs : list (Z * Event)) :
  nondecreasing t0 reqs →
  map_Forall (λ _ s, (firstSeen s ≤ lastHeartbeat s ∧ lastHeartbeat s ≤ last_call reqs t0)%Z)
             (sessions (foldl (serve tds) (initial t0) reqs))
  ∧ (lastCleanup (foldl (serve tds) (initial t0) reqs) ≤ last_call reqs t0)%Z.
Proof.
  intros Hmono.
  destruct (serve_all_timely tds reqs t0 (initial t0) Hmono (initial_timely t0))
    as (Hsess & Hclean & _).
  by split.
Qed.

Lemma X4_session_times_in_order_witness :
  map_Forall (λ _ s, (firstSeen s ≤ lastHeartbeat s ∧ lastHeartbeat s ≤ 9)%Z)
             (sessions (foldl (serve utc_day) (initial 0)
                          [ (5%Z, POST "/pageview" (json "a" "/home"));
                            (9%Z, POST "/heartbeat" (json "a" "/")) ])).
Proof.
  apply (X4_session_times_in_order utc_day 0
           [ (5%Z, POST "/pageview" (json "a" "/home"));
             (9%Z, POST "/heartbeat" (json "a" "/")) ]).
  cbn. lia.
Defined.

(** X5. When the requests arrive at times that never go back, the
    page-view list is in order of timestamp, oldest first, and no view is
    later than the last request. *)
Theorem X5_pageViews_in_time_order (tds : Z → string) (t0 : Z) (reqs : list (Z * Event)) :
  nondecreasing t0 reqs →
  StronglySorted (λ a b, (view_timestamp a ≤ view_timestamp b)%Z)
                 (pageViews (foldl (serve tds) (initial t0) reqs))
  ∧ Forall (λ v, (view_timestamp v ≤ last_call reqs t0)%Z)
           (pageViews (foldl (serve tds) (initial t0) reqs)).
Proof.
  intros Hmono.
  destruct (serve_all_timely tds reqs t0 (initial t0) Hmono (initial_timely t0))
    as (_ & _ & Hall & Hsorted).
  by split.
Qed.

Lemma X5_pageViews_in_time_order_witness :
  StronglySorted (λ a b, (view_timestamp a ≤ view_timestamp b)%Z)
                 (pageViews (foldl (serve utc_day) (initial 0)
                               [ (5%Z, POST "/pageview" (json "a" "/home"));
                                 (9%Z, POST "/pageview" (json "b" "/")) ])).
Proof.
  apply (X5_pageViews_in_time_order utc_day 0
           [ (5%Z, POST "/pageview" (json "a" "/home"));
             (9%Z, POST "/pageview" (json "b" "/")) ]).
  cbn. lia.
Defined.

(** ** Bounds on the summary *)

Lemma own_set_length (o : JsObject) k v : (length (own_set o k v) ≤ S (length o))%nat.
Proof.
  induction o as [|[k0 v0] o IH]; cbn; [lia|].
  destruct (String.eqb k k0); cbn; lia.
Qed.

Lemma pageStats_length views : (length (pageStats_of views) ≤ length views)%nat.
Proof.
  induction views as [|v views IH] using rev_ind; [done|].
  rewrite count_view_snoc, length_app. cbn [length]. unfold count_view, obj_set.
  destruct (String.eqb _ "__proto__"); [lia|].
  etransitivity; [apply own_set_length|]. lia.
Qed.

Lemma popular_no_more_than_views views : (length (popular views) ≤ length views)%nat.
Proof.
  unfold popular, Array_sort. rewrite length_take.
  rewrite stable_sort_Permutation, Object_entries_Permutation.
  pose proof (pageStats_length views). lia.
Qed.

(** X6. After any requests served since the module was loaded, a GET
    [/current] reports at most 1000 total views, no more views of today
    than total views, and no more popular pages than views of today (nor
    than ten). *)
Theorem X6_summary_bounds (tds : Z → string) (t0 : Z) (reqs : list (Z * Event))
    (event : Event) (now : Z) :
  httpMethod event = "GET" → route event = "/current" →
  ∃ stats st',
    run (handler tds event) now (foldl (serve tds) (initial t0) reqs)
    = (Returned (Some {| statusCode := 200; headers := cors_headers;
                         response_body := StatsBody stats |}), st')
    ∧ (totalViews stats ≤ 1000)%nat
    ∧ (todayViews stats ≤ totalViews stats)%nat
    ∧ (length (popularPages stats) ≤ todayViews stats)%nat
    ∧ (length (popularPages stats) ≤ 10)%nat.
Proof.
  intros Hm Hr.
  destruct (handler_current tds event now (foldl (serve tds) (initial t0) reqs) Hm Hr)
    as (stats & E & _ & Htotal & Htoday & Hpop).
  eexists stats, _. split; [exact E|].
  rewrite Htotal, Htoday, Hpop. split; [|split; [|split]].
  - rewrite serve_all_pageViews, slice_last_length. lia.
  - apply List.filter_length_le.
  - apply popular_no_more_than_views.
  - apply popular_length.
Qed.

Lemma X6_summary_bounds_witness :
  ∃ stats st',
    run (handler utc_day (GET "/current")) 7
        (foldl (serve utc_day) (initial 0) [ (5%Z, POST "/pageview" (json "a" "/home")) ])
    = (Returned (Some {| statusCode := 200; headers := cors_headers;
                         response_body := StatsBody stats |}), st')
    ∧ (totalViews stats ≤ 1000)%nat.
Proof.
  destruct (X6_summary_bounds utc_day 0 [ (5%Z, POST "/pageview" (json "a" "/home")) ]
              (GET "/current") 7 eq_refl eq_refl) as (stats & st' & E & H & _).
  by exists stats, st'.
Defined.

(** X7. [onlineUsers] is the number of sessions in the table when the last
    sweep is at most 60000 ms old, however long ago their last heartbeats
    were; otherwise it is the number of sessions whose last heartbeat is
    no more than five minutes old. *)
Theorem X7_onlineUsers_counts (tds : Z → string) (event : Event) (now : Z) (st : Store) :
  httpMethod event = "GET" → route event = "/current" →
  ∃ stats st',
    run (handler tds event) now st
    = (Returned (Some {| statusCode := 200; headers := cors_headers;
                         response_body := StatsBody stats |}), st')
    ∧ onlineUsers stats =
        if (60000 <? now - lastCleanup st)%Z
        then size (filter (λ ks, ¬ stale now (snd ks)) (sessions st))
        else size (sessions st).
Proof.
  intros Hm Hr.
  destruct (handler_current tds event now st Hm Hr) as (stats & E & Hon & _).
  eexists stats, _. split; [exact E|]. rewrite Hon. unfold before_dispatch.
  destruct (60000 <? _)%Z; [|done]. cbn. by rewrite sweep_filter.
Qed.

Lemma X7_onlineUsers_counts_witness :
  ∃ stats st',
    run (handler utc_day (GET "/current")) 400000
        (snd (run (handler utc_day (POST "/pageview" (json "a" "/home"))) 5 (initial 0)))
    = (Returned (Some {| statusCode := 200; headers := cors_headers;
                         response_body := StatsBody stats |}), st')
    ∧ onlineUsers stats = 0%nat.
Proof.
  destruct (X7_onlineUsers_counts utc_day (GET "/current") 400000
              (snd (run (handler utc_day (POST "/pageview" (json "a" "/home"))) 5 (initial 0)))
              eq_refl eq_refl) as (stats & st' & E & H).
  exists stats, st'. split; [exact E|]. rewrite H. vm_compute. reflexivity.
Defined.

(** ** The sweep *)

Lemma sweep_sweep (c1 c2 : Z) (m : gmap Key Session) :
  (c1 ≤ c2)%Z → sweep c2 (sweep c1 m) = sweep c2 m.
Proof.
  intros Hc. apply map_eq. intros k. rewrite !sweep_lookup.
  destruct (m !! k) as [s|]; [|done].
  destruct (Z.ltb_spec (lastHeartbeat s) c1), (Z.ltb_spec (lastHeartbeat s) c2);
    try done; try lia.
Qed.

(** X8. A sweep only removes sessions, never adds or changes one, and a
    later sweep makes an earlier one redundant: sweeping at [now1] and then
    at [now2], no earlier, leaves the sessions that sweeping at [now2]
    alone leaves.  So sweeping twice at one instant is sweeping once. *)
Theorem X8_sweep_only_removes (now1 now2 : Z) (st : Store) :
  sessions (snd (run cleanup now1 st)) ⊆ sessions st
  ∧ (size (sessions (snd (run cleanup now1 st))) ≤ size (sessions st))%nat
  ∧ ((now1 ≤ now2)%Z →
     sessions (snd (run cleanup now2 (snd (run cleanup now1 st))))
     = sessions (snd (run cleanup now2 st)))
  ∧ snd (run cleanup now1 (snd (run cleanup now1 st))) = snd (run cleanup now1 st).
Proof.
  rewrite !cleanup_run. cbn [snd sessions swept].
  assert (sweep (now1 - FIVE_MINUTES) (sessions st) ⊆ sessions st) as Hsub.
  { rewrite sweep_filter. apply map_filter_subseteq. }
  split; [done|]. split; [by apply map_subseteq_size|]. split.
  - intros Hle. apply sweep_sweep. lia.
  - unfold swept. cbn. f_equal. apply sweep_sweep. lia.
Qed.

Lemma X8_sweep_only_removes_witness :
  sessions (snd (run cleanup 400000 (snd (run cleanup 300006 (initial 0)))))
  = sessions (snd (run cleanup 400000 (initial 0))).
Proof.
  destruct (X8_sweep_only_removes 300006 400000 (initial 0)) as (_ & _ & H & _).
  apply H. lia.
Defined.

(** ** Sessions come and go *)

Lemma session_effect_absent (event : Event) (now : Z) (m : gmap Key Session) (k : Key) :
  m !! k = None → ¬ pageview_for k event → session_effect event now m !! k = None.
Proof.
  intros Hk Hnot. unfold session_effect.
  destruct (String.eqb (httpMethod event) "POST") eqn:Hm; [|done].
  destruct (body event) as [| |d] eqn:Hb; try done.
  destruct (String.eqb (route event) "/pageview") eqn:Hr.
  - unfold upsert. destruct (decide (data_sessionId d = k)) as [<-|Hne].
    + destruct Hnot. split; [by apply String.eqb_eq|]. split; [by apply String.eqb_eq|].
      by exists d.
    + by rewrite lookup_insert_ne.
  - destruct (String.eqb (route event) "/heartbeat").
    + unfold refresh. destruct (m !! data_sessionId d) as [s|] eqn:E; [|done].
      rewrite lookup_insert_ne; [done|]. intros Heq. rewrite Heq in E. congruence.
    + destruct (String.eqb (route event) "/offline"); [|done].
      rewrite lookup_delete_None. by right.
Qed.

Lemma serve_absent (tds : Z → string) (st : Store) (now : Z) (event : Event) (k : Key) :
  sessions st !! k = None → ¬ pageview_for k event →
  sessions (serve tds st (now, event)) !! k = None.
Proof.
  intros Hk Hnot. rewrite serve_sessions.
  destruct (String.eqb (httpMethod event) "OPTIONS"); [done|].
  apply session_effect_absent; [|done].
  destruct (sessions (before_dispatch now st) !! k) as [s|] eqn:E; [|done].
  apply before_dispatch_subset in E. congruence.
Qed.

(** X9. A session whose last heartbeat is more than five minutes old is
    gone after the next request that sweeps (not OPTIONS, more than 60000
    ms after the last sweep), unless that request is a page view for the
    same [sessionId]. *)
Theorem X9_stale_session_evicted (tds : Z → string) (event : Event) (now : Z) (st : Store)
    (k : Key) (s : Session) :
  httpMethod event ≠ "OPTIONS" → (60000 < now - lastCleanup st)%Z →
  sessions st !! k = Some s → stale now s → ¬ pageview_for k event →
  sessions (snd (run (handler tds event) now st)) !! k = None.
Proof.
  intros Ho Hdue Hs Hstale Hnot.
  change (snd (run (handler tds event) now st)) with (serve tds st (now, event)).
  rewrite serve_sessions. apply String.eqb_neq in Ho. rewrite Ho.
  apply session_effect_absent; [|done].
  unfold before_dispatch. apply Z.ltb_lt in Hdue. rewrite Hdue. cbn.
  rewrite sweep_lookup, Hs. unfold stale in Hstale. apply Z.ltb_lt in Hstale.
  by rewrite Hstale.
Qed.

Lemma X9_stale_session_evicted_witness :
  sessions (snd (run (handler utc_day (GET "/current")) 400000
                     (snd (run (handler utc_day (POST "/pageview" (json "a" "/home"))) 5
                               (initial 0))))) !! Some "a" = None.
Proof.
  apply (X9_stale_session_evicted utc_day (GET "/current") 400000 _ (Some "a")
           (mkSession (Some "a") 5 5 (Some "/home"))).
  - discriminate.
  - vm_compute. reflexivity.
  - vm_compute. reflexivity.
  - unfold stale, FIVE_MINUTES. cbn. lia.
  - intros (Hm & _). discriminate.
Defined.

(** X10. A page view for a session that the sweep of the same request
    evicts starts the session anew: it is in the table afterwards, first
    seen now. *)
Theorem X10_stale_session_starts_anew (tds : Z → string) (event : Event) (now : Z)
    (st : Store) (d : Data) (s : Session) :
  httpMethod event = "POST" → route event = "/pageview" → body event = JsonValue d →
  (60000 < now - lastCleanup st)%Z →
  sessions st !! data_sessionId d = Some s → stale now s →
  sessions (snd (run (handler tds event) now st)) !! data_sessionId d
  = Some {| sessionId := data_sessionId d; firstSeen := now; lastHeartbeat := now;
            currentPage := data_page d |}.
Proof.
  intros Hm Hr Hb Hdue Hs Hstale.
  change (snd (run (handler tds event) now st)) with (serve tds st (now, event)).
  rewrite serve_sessions, Hm. cbn [String.eqb Ascii.eqb Bool.eqb].
  unfold session_effect. rewrite Hm, Hb, Hr. cbn [String.eqb Ascii.eqb Bool.eqb].
  unfold upsert. rewrite lookup_insert_eq.
  unfold before_dispatch. apply Z.ltb_lt in Hdue. rewrite Hdue. cbn.
  rewrite sweep_lookup, Hs. unfold stale in Hstale. apply Z.ltb_lt in Hstale.
  by rewrite Hstale.
Qed.

Lemma X10_stale_session_starts_anew_witness :
  sessions (snd (run (handler utc_day (POST "/pageview" (json "a" "/next"))) 400000
                     (snd (run (handler utc_day (POST "/pageview" (json "a" "/home"))) 5
                               (initial 0))))) !! Some "a"
  = Some (mkSession (Some "a") 400000 400000 (Some "/next")).
Proof.
  apply (X10_stale_session_starts_anew utc_day (POST "/pageview" (json "a" "/next")) 400000 _
           (mkData (Some "a") (Some "/next")) (mkSession (Some "a") 5 5 (Some "/home")));
    reflexivity.
Defined.

(** X11. Only a page view creates a session: a [sessionId] that is not in
    the table stays out of it through any requests among which there is no
    page view for it, heartbeats for it included. *)
Theorem X11_only_page_views_create (tds : Z → string) (k : Key) (reqs : list (Z * Event))
    (st : Store) :
  sessions st !! k = None →
  Forall (λ req, ¬ pageview_for k (snd req)) reqs →
  sessions (foldl (serve tds) st reqs) !! k = None.
Proof.
  revert st. induction reqs as [|[now event] reqs IH]; intros st Hk Hall; [done|].
  apply Forall_cons in Hall as [Hnot Hall]. cbn [foldl].
  apply IH; [|done]. by apply serve_absent.
Qed.

Lemma X11_only_page_views_create_witness :
  sessions (foldl (serve utc_day) (initial 0)
              [ (5%Z, POST "/heartbeat" (json "ghost" "/"));
                (6%Z, POST "/pageview" (json "a" "/home")) ]) !! Some "ghost" = None.
Proof.
  apply X11_only_page_views_create; [reflexivity|].
  constructor; [|constructor; [|constructor]]; cbn.
  - intros (_ & Hr & _). discriminate.
  - intros (_ & _ & d & [= <-] & [=]).
Defined.

(** X12. After a POST [/offline] the session stays out of the table
    through any later requests until a page view for it arrives;
    heartbeats do not bring it back. *)
Theorem X12_offline_until_next_page_view (tds : Z → string) (event : Event) (now : Z)
    (st : Store) (d : Data) (reqs : list (Z * Event)) :
  httpMethod event = "POST" → route event = "/offline" → body event = JsonValue d →
  Forall (λ req, ¬ pageview_for (data_sessionId d) (snd req)) reqs →
  sessions (foldl (serve tds) (serve tds st (now, event)) reqs) !! data_sessionId d = None.
Proof.
  intros Hm Hr Hb Hall. revert Hall.
  assert (sessions (serve tds st (now, event)) !! data_sessionId d = None) as Hgone.
  { rewrite serve_sessions, Hm. cbn [String.eqb Ascii.eqb Bool.eqb].
    unfold session_effect. rewrite Hm, Hb, Hr. cbn [String.eqb Ascii.eqb Bool.eqb].
    apply lookup_delete_eq. }
  revert Hgone. generalize (serve tds st (now, event)). clear.
  induction reqs as [|[now event] reqs IH]; intros st Hk Hall; [done|].
  apply Forall_cons in Hall as [Hnot Hall]. cbn [foldl].
  apply IH; [|done]. by apply serve_absent.
Qed.

Lemma X12_offline_until_next_page_view_witness :
  sessions (foldl (serve utc_day)
              (serve utc_day
                 (snd (run (handler utc_day (POST "/pageview" (json "a" "/home"))) 5 (initial 0)))
                 (7%Z, POST "/offline" (json "a" "/")))
              [ (8%Z, POST "/heartbeat" (json "a" "/")) ]) !! Some "a" = None.
Proof.
  apply (X12_offline_until_next_page_view utc_day (POST "/offline" (json "a" "/")) 7 _
           (mkData (Some "a") (Some "/"))); try reflexivity.
  constructor; [|constructor]. cbn. intros (_ & Hr & _). discriminate.
Defined.

Lemma session_effect_other (event : Event) (now : Z) (m : gmap Key Session) (k : Key) :
  (∀ d, body event = JsonValue d → data_sessionId d ≠ k) →
  session_effect event now m !! k = m !! k.
Proof.
  intros Hother. unfold session_effect.
  destruct (String.eqb (httpMethod event) "POST"); [|done].
  destruct (body event) as [| |d] eqn:Hb; try done.
  specialize (Hother d eq_refl).
  repeat match goal with
         | |- context [if String.eqb (route event) ?b then _ else _] =>
             destruct (String.eqb (route event) b)
         end; try done.
  - unfold upsert. by rewrite lookup_insert_ne.
  - unfold refresh. destruct (m !! data_sessionId d); [|done]. by rewrite lookup_insert_ne.
  - by rewrite lookup_delete_ne.
Qed.

(** X13. The sweep runs at most once in 60000 ms: after a request that
    swept at [t], a request no more than 60000 ms later does not sweep;
    [lastCleanup] stays at [t], and every session the second request does
    not name is in the table as before, however old its last heartbeat. *)
Theorem X13_one_sweep_per_window (tds : Z → string) (event1 event2 : Event) (t t' : Z)
    (st : Store) :
  httpMethod event1 ≠ "OPTIONS" → (60000 < t - lastCleanup st)%Z → (t' - t ≤ 60000)%Z →
  lastCleanup (serve tds st (t, event1)) = t
  ∧ lastCleanup (serve tds (serve tds st (t, event1)) (t', event2)) = t
  ∧ ∀ k, (∀ d, body event2 = JsonValue d → data_sessionId d ≠ k) →
         sessions (serve tds (serve tds st (t, event1)) (t', event2)) !! k
         = sessions (serve tds st (t, event1)) !! k.
Proof.
  intros Ho Hdue Hwin.
  assert (lastCleanup (serve tds st (t, event1)) = t) as Hlast.
  { rewrite serve_lastCleanup. apply String.eqb_neq in Ho. rewrite Ho.
    unfold before_dispatch. apply Z.ltb_lt in Hdue. by rewrite Hdue. }
  assert (before_dispatch t' (serve tds st (t, event1)) = serve tds st (t, event1)) as Hno.
  { unfold before_dispatch. rewrite Hlast.
    destruct (Z.ltb_spec 60000 (t' - t)); [lia | done]. }
  split; [done|]. split.
  - rewrite serve_lastCleanup, Hno. by destruct (String.eqb _ "OPTIONS").
  - intros k Hother. rewrite serve_sessions, Hno.
    destruct (String.eqb _ "OPTIONS"); [done|]. by apply session_effect_other.
Qed.

Lemma X13_one_sweep_per_window_witness :
  lastCleanup (serve utc_day (serve utc_day (initial 0) (70000%Z, GET "/current"))
                     (100000%Z, GET "/current")) = 70000%Z.
Proof.
  destruct (X13_one_sweep_per_window utc_day (GET "/current") (GET "/current")
              70000 100000 (initial 0)) as (_ & H & _); [discriminate | cbn; lia | lia |].
  exact H.
Defined.

Lemma push_view_last (v : View) (l : list View) : v ∈ push_view v l.
Proof.
  unfold push_view, slice_last. destruct (Nat.ltb_spec 1000 (length (l ++ [v]))).
  - rewrite length_app in *. cbn [length] in *.
    rewrite drop_app_le by lia. set_solver.
  - set_solver.
Qed.

(** X14. A page view puts its session online: a GET [/current] served next,
    no more than five minutes later, counts at least one online user, and
    when it falls on the same day it counts at least one view of today. *)
Theorem X14_page_view_is_counted (tds : Z → string) (event1 event2 : Event) (t t' : Z)
    (st : Store) (d : Data) :
  httpMethod event1 = "POST" → route event1 = "/pageview" → body event1 = JsonValue d →
  httpMethod event2 = "GET" → route event2 = "/current" →
  ∃ stats st',
    run (handler tds event2) t' (serve tds st (t, event1))
    = (Returned (Some {| statusCode := 200; headers := cors_headers;
                         response_body := StatsBody stats |}), st')
    ∧ ((t' - t ≤ FIVE_MINUTES)%Z → (1 ≤ onlineUsers stats)%nat)
    ∧ (tds t = tds t' → (1 ≤ todayViews stats)%nat).
Proof.
  intros Hm1 Hr1 Hb1 Hm2 Hr2.
  destruct (handler_current tds event2 t' (serve tds st (t, event1)) Hm2 Hr2)
    as (stats & E & Hon & _ & Htoday & _).
  eexists stats, _. split; [exact E|]. split.
  - intros Hsoon. rewrite Hon.
    assert (∃ s, sessions (serve tds st (t, event1)) !! data_sessionId d = Some s
                 ∧ lastHeartbeat s = t) as (s & Hs & Hl).
    { rewrite serve_sessions, Hm1. cbn [String.eqb Ascii.eqb Bool.eqb].
      unfold session_effect. rewrite Hm1, Hb1, Hr1. cbn [String.eqb Ascii.eqb Bool.eqb].
      unfold upsert. rewrite lookup_insert_eq. eauto. }
    assert (sessions (before_dispatch t' (serve tds st (t, event1))) !! data_sessionId d
            = Some s) as Hkept.
    { apply before_dispatch_lookup; [done | lia]. }
    assert (size (sessions (before_dispatch t' (serve tds st (t, event1)))) ≠ 0%nat)
      by (eapply map_size_ne_0_lookup_2; eauto).
    lia.
  - intros Hday. rewrite Htoday. unfold today_views.
    pose proof (serve_pageViews tds st (t, event1)) as Hpv.
    unfold submitted in Hpv. cbn [fst snd] in Hpv.
    rewrite Hm1, Hr1, Hb1 in Hpv. cbn [String.eqb Ascii.eqb Bool.eqb andb] in Hpv.
    assert (spread_with_timestamp (PValue d) t
              ∈ List.filter (is_today tds (tds t')) (pageViews (serve tds st (t, event1))))
      as Hin.
    { apply list_elem_of_In, List.filter_In. split.
      - apply list_elem_of_In. rewrite Hpv. apply push_view_last.
      - unfold is_today. cbn. rewrite Hday. apply String.eqb_refl. }
    destruct (List.filter _ _); [by apply not_elem_of_nil in Hin | cbn; lia].
Qed.

Lemma X14_page_view_is_counted_witness :
  ∃ stats st',
    run (handler utc_day (GET "/current")) 7
        (serve utc_day (initial 0) (5%Z, POST "/pageview" (json "a" "/home")))
    = (Returned (Some {| statusCode := 200; headers := cors_headers;
                         response_body := StatsBody stats |}), st')
    ∧ (1 ≤ onlineUsers stats)%nat ∧ (1 ≤ todayViews stats)%nat.
Proof.
  destruct (X14_page_view_is_counted utc_day (POST "/pageview" (json "a" "/home"))
              (GET "/current") 5 7 (initial 0) (mkData (Some "a") (Some "/home"))
              eq_refl eq_refl eq_refl eq_refl eq_refl) as (stats & st' & E & H1 & H2).
  exists stats, st'. split; [exact E|]. split; [apply H1 | apply H2].
  - unfold FIVE_MINUTES. lia.
  - reflexivity.
Defined.

(** ** The answers of the handler *)

Lemma route_method_cases (r : string) :
  (route_method r = Some "POST" ∧ (r = "/pageview" ∨ r = "/heartbeat" ∨ r = "/offline"))
  ∨ (route_method r = Some "GET" ∧ r = "/current")
  ∨ (route_method r = None
     ∧ r ≠ "/pageview" ∧ r ≠ "/heartbeat" ∧ r ≠ "/offline" ∧ r ≠ "/current").
Proof.
  unfold route_method.
  destruct (String.eqb_spec r "/pageview"); [left; auto|].
  destruct (String.eqb_spec r "/heartbeat"); [left; auto|].
  destruct (String.eqb_spec r "/offline"); [left; auto|].
  destruct (String.eqb_spec r "/current"); [right; left; auto|].
  right. right. auto.
Qed.

Lemma handler_post tds event now st :
  httpMethod event = "POST" →
  route event = "/pageview" ∨ route event = "/heartbeat" ∨ route event = "/offline" →
  ∃ r st', run (handler tds event) now st = (Returned (Some r), st')
           ∧ ((statusCode r = 200%Z ∧ ∃ d, body event = JsonValue d)
              ∨ (statusCode r = 500%Z ∧ (body event = Malformed ∨ body event = JsonNull))).
Proof.
  intros Hm Hr.
  rewrite handler_not_options, caught_run by (rewrite Hm; discriminate).
  destruct Hr as [Hr|[Hr|Hr]];
    [rewrite dispatch_pageview by done
    |rewrite dispatch_heartbeat by done
    |rewrite dispatch_offline by done];
    rewrite fmap_Some_run; destruct (body event) as [| |d] eqn:Hb;
    first [ rewrite handlePageView_malformed by done
          | rewrite handlePageView_null by done
          | rewrite (handlePageView_value _ _ _ _ d) by done
          | rewrite handleHeartbeat_malformed by done
          | rewrite handleHeartbeat_null by done
          | rewrite (handleHeartbeat_value _ _ _ _ d) by done
          | rewrite handleOffline_malformed by done
          | rewrite handleOffline_null by done
          | rewrite (handleOffline_value _ _ _ _ d) by done ];
    eexists _, _; (split; [reflexivity|]); cbn; eauto.
Qed.

(** X15. [exports.handler] never throws: what a route handler throws is
    caught.  It ends without a response exactly when the path is one of
    the four routes and the method is neither the one of that route nor
    OPTIONS. *)
Theorem X15_handler_never_throws (tds : Z → string) (event : Event) (now : Z) (st : Store) :
  ∃ o st',
    run (handler tds event) now st = (Returned o, st')
    ∧ (o = None ↔
       httpMethod event ≠ "OPTIONS"
       ∧ ∃ m, route_method (route event) = Some m ∧ httpMethod event ≠ m).
Proof.
  destruct (decide (httpMethod event = "OPTIONS")) as [Ho|Ho].
  { rewrite handler_options by done. eexists _, _. split; [reflexivity|].
    split; [discriminate | by intros [? _]]. }
  destruct (route_method (route event)) as [m|] eqn:Hroute.
  - destruct (decide (httpMethod event = m)) as [Hm|Hm].
    + assert (∃ r st', run (handler tds event) now st = (Returned (Some r), st'))
        as (r & st' & E).
      { destruct (route_method_cases (route event)) as [[Hp Hr]|[[Hg Hr]|[Hn _]]];
          [| |congruence].
        - destruct (handler_post tds event now st) as (r & st' & E & _);
            [congruence | done | eauto].
        - destruct (handler_current tds event now st) as (stats & E & _);
            [congruence | done | eauto]. }
      rewrite E. eexists _, _. split; [reflexivity|].
      split; [discriminate|]. intros (_ & m' & [= <-] & Hne). done.
    + rewrite (handler_wrong_method _ _ m) by done. eexists _, _. split; [reflexivity|].
      split; [|done]. intros _. split; [done|]. by exists m.
  - rewrite handler_unknown_route by done. eexists _, _. split; [reflexivity|].
    split; [discriminate|]. by intros (_ & m & [=] & _).
Qed.

(** X16. The status of a response is 200, 404 or 500.  It is 500 exactly
    for a POST to [/pageview], [/heartbeat] or [/offline] whose body is not
    JSON or is [null], and 404 exactly when the method is not OPTIONS and
    the path is none of the four routes. *)
Theorem X16_status_of_a_response (tds : Z → string) (event : Event) (now : Z) (st : Store)
    (r : Response) :
  fst (run (handler tds event) now st) = Returned (Some r) →
  (statusCode r = 200%Z ∨ statusCode r = 404%Z ∨ statusCode r = 500%Z)
  ∧ (statusCode r = 500%Z ↔
     httpMethod event = "POST"
     ∧ (route event = "/pageview" ∨ route event = "/heartbeat" ∨ route event = "/offline")
     ∧ (body event = Malformed ∨ body event = JsonNull))
  ∧ (statusCode r = 404%Z ↔
     httpMethod event ≠ "OPTIONS" ∧ route_method (route event) = None).
Proof.
  destruct (decide (httpMethod event = "OPTIONS")) as [Ho|Ho].
  { rewrite handler_options by done. cbn. intros [= <-]. cbn.
    split; [auto|]. split; split; try discriminate.
    - intros (Hm & _). congruence.
    - by intros [? _]. }
  destruct (route_method_cases (route event)) as [[Hp Hr]|[[Hg Hr]|(Hn & H1 & H2 & H3 & H4)]].
  - destruct (decide (httpMethod event = "POST")) as [Hm|Hm].
    + destruct (handler_post tds event now st Hm Hr) as (r' & st' & E & Hstatus).
      rewrite E. cbn. intros [= <-].
      destruct Hstatus as [[H200 [d Hb]]|[H500 Hb]].
      * rewrite H200. split; [auto|]. split; split; try discriminate.
        -- intros (_ & _ & [Hb'|Hb']); congruence.
        -- intros [_ Hnone]. congruence.
      * rewrite H500. split; [auto|]. split; split; try done; try discriminate.
        intros [_ Hnone]. congruence.
    + rewrite (handler_wrong_method _ _ "POST") by done. discriminate.
  - destruct (decide (httpMethod event = "GET")) as [Hm|Hm].
    + destruct (handler_current tds event now st Hm Hr) as (stats & E & _).
      rewrite E. cbn. intros [= <-]. cbn.
      split; [auto|]. split; split; try discriminate.
      * intros (Hpost & _). congruence.
      * intros [_ Hnone]. congruence.
    + rewrite (handler_wrong_method _ _ "GET") by done. discriminate.
  - rewrite handler_unknown_route by done. cbn. intros [= <-]. cbn.
    split; [auto|]. split; split; try done; try discriminate.
    intros (_ & [Hr|[Hr|Hr]] & _); congruence.
Qed.

Lemma X16_status_of_a_response_witness :
  statusCode internal_error = 404%Z ↔
  httpMethod (POST "/offline" Malformed) ≠ "OPTIONS"
  ∧ route_method (route (POST "/offline" Malformed)) = None.
Proof.
  exact (proj2 (proj2 (X16_status_of_a_response utc_day (POST "/offline" Malformed) 5
                         (initial 0) internal_error eq_refl))).
Defined.

(** ** The ten most viewed pages *)

Lemma assoc_Some_elem_of (o : JsObject) k v : assoc k o = Some v → (k, v) ∈ o.
Proof.
  induction o as [|[k0 v0] o IH]; cbn; [done|].
  destruct (String.eqb k k0) eqn:E.
  - apply String.eqb_eq in E as ->. intros [= ->]. set_solver.
  - intros H. apply elem_of_cons. right. auto.
Qed.

Lemma occurrences_pos k views : (0 < occurrences k views)%nat ↔ k ∈ page_keys views.
Proof.
  unfold occurrences, page_keys. induction views as [|v views IH]; cbn.
  - split; [lia | by intros ?%not_elem_of_nil].
  - destruct (String.eqb (property_key (view_page v)) k) eqn:E.
    + apply String.eqb_eq in E as ->. cbn. split; [intros _; by left | lia].
    + apply String.eqb_neq in E. rewrite IH, elem_of_cons. split; [auto|].
      by intros [->|?].
Qed.

Lemma pageStats_entry views p c :
  plain_pages views → (p, c) ∈ pageStats_of views →
  c = VNum (Z.of_nat (occurrences p views)) ∧ (0 < occurrences p views)%nat.
Proof.
  intros Hplain Hin. apply assoc_elem_of in Hin; [|apply pageStats_keys].
  rewrite pageStats_plain in Hin by done.
  destruct (occurrences p views); [done|]. injection Hin as <-. split; [done | lia].
Qed.

Lemma pageStats_has views k :
  plain_pages views → (0 < occurrences k views)%nat →
  (k, VNum (Z.of_nat (occurrences k views))) ∈ pageStats_of views.
Proof.
  intros Hplain Hocc. apply assoc_Some_elem_of. rewrite pageStats_plain by done.
  destruct (occurrences k views); [lia | done].
Qed.

Lemma pageStats_distinct views :
  plain_pages views → length (pageStats_of views) = length (remove_dups (page_keys views)).
Proof.
  intros Hplain. rewrite <- (length_fmap fst (pageStats_of views)).
  apply Permutation_length, NoDup_Permutation;
    [apply pageStats_keys | apply NoDup_remove_dups|].
  intros k. rewrite elem_of_remove_dups, <- occurrences_pos. split.
  - intros [[k' c] [-> Hin]]%list_elem_of_fmap. cbn.
    by destruct (pageStats_entry views k' c Hplain Hin).
  - intros Hocc. apply list_elem_of_fmap.
    exists (k, VNum (Z.of_nat (occurrences k views))). split; [done|].
    by apply pageStats_has.
Qed.

#[local] Instance count_order_transitive :
  Transitive (λ x y : string * JsVal, (count_of y ≤ count_of x)%Z).
Proof. intros x y z ??. lia. Qed.



(** X18. When the pages viewed today are ordinary keys and no more than ten
    in number, [popularPages] lists every one of them with the number of
    its views of today. *)
Theorem X18_popularPages_complete (tds : Z → string) (event : Event) (now : Z) (st : Store) :
  httpMethod event = "GET" → route event = "/current" →
  plain_pages (today_views tds now st) →
  (length (remove_dups (page_keys (today_views tds now st))) ≤ 10)%nat →
  ∃ stats st',
    run (handler tds event) now st
    = (Returned (Some {| statusCode := 200; headers := cors_headers;
                         response_body := StatsBody stats |}), st')
    ∧ ∀ k, k ∈ page_keys (today_views tds now st) →
           (k, VNum (Z.of_nat (occurrences k (today_views tds now st))))
             ∈ popularPages stats.
Proof.
  intros Hm Hr Hplain Hfew.
  destruct (handler_current tds event now st Hm Hr) as (stats & E & _ & _ & _ & Hpop).
  eexists stats, _. split; [exact E|]. rewrite Hpop.
  intros k Hk%occurrences_pos. unfold popular.
  rewrite take_ge.
  2:{ unfold Array_sort. rewrite stable_sort_Permutation, Object_entries_Permutation.
      by rewrite pageStats_distinct. }
  unfold Array_sort. rewrite stable_sort_Permutation, Object_entries_Permutation.
  by apply pageStats_has.
Qed.

Lemma X18_popularPages_complete_witness :
  ∃ stats st',
    run (handler utc_day (GET "/current")) 7
        (serve utc_day (initial 0) (5%Z, POST "/pageview" (json "a" "/home")))
    = (Returned (Some {| statusCode := 200; headers := cors_headers;
                         response_body := StatsBody stats |}), st')
    ∧ ("/home", VNum 1) ∈ popularPages stats.
Proof.
  destruct (X18_popularPages_complete utc_day (GET "/current") 7
              (serve utc_day (initial 0) (5%Z, POST "/pageview" (json "a" "/home"))))
    as (stats & st' & E & H); [reflexivity | reflexivity | | | ].
  - repeat constructor.
  - vm_compute. lia.
  - exists stats, st'. split; [exact E|]. apply (H "/home"). vm_compute. set_solver.
Defined.
